(** * pdf2txt: the fallback text extractor of [pdf_extractor.py]

    A shallow embedding of [check_pdf_file], the three backend adapters
    ([extract_with_pdfplumber], [extract_with_pypdf],
    [extract_with_pdfminer]) and the orchestrator [extract_pdf_text],
    followed by the properties the specification states about them.

    Python values are modelled as follows.
    - [str] is a list of Unicode code points, so that [len], [strip],
      [split] and [startswith] count and compare what Python counts and
      compares.  Literals are written in UTF-8 and decoded by [u8].
    - [Optional[str]] is [option str]; truthiness is [truthy].
    - The file system and the three PDF libraries are outside the program;
      their answers on a given path are the fields of [Env].
    - [logger] calls and backend invocations are collected, in program
      order, in a trace that every function returns next to its value. *)

From Stdlib Require Import List NArith Arith Bool Lia.
From Stdlib.Strings Require Import String Ascii Byte.
From Stdlib Require Import DecimalString.
Import ListNotations.

Set Implicit Arguments.

(** ** Python strings *)

Module PyStr.

Definition char := N.
Definition str := list char.

(** UTF-8 decoding of a source literal into code points. *)
Fixpoint utf8_decode (s : string) (need : nat) (acc : N) : str :=
  match s with
  | EmptyString => []
  | String c s' =>
      let b := N_of_ascii c in
      match need with
      | O =>
          if (b <? 128)%N then b :: utf8_decode s' 0 0%N
          else if (b <? 224)%N then utf8_decode s' 1 (b mod 32)%N
          else if (b <? 240)%N then utf8_decode s' 2 (b mod 16)%N
          else utf8_decode s' 3 (b mod 8)%N
      | S O => (acc * 64 + b mod 64)%N :: utf8_decode s' 0 0%N
      | S n => utf8_decode s' n (acc * 64 + b mod 64)%N
      end
  end.

Definition u8 (s : string) : str := utf8_decode s 0 0%N.

Definition NL : char := 10%N.

(** [a == b] on strings. *)
Fixpoint str_eqb (a b : str) : bool :=
  match a, b with
  | [], [] => true
  | x :: a', y :: b' => (x =? y)%N && str_eqb a' b'
  | _, _ => false
  end.

(** [s.startswith(p)] *)
Fixpoint startswith (s p : str) : bool :=
  match p, s with
  | [], _ => true
  | y :: p', x :: s' => (x =? y)%N && startswith s' p'
  | _ :: _, [] => false
  end.

(** [s.endswith(p)] *)
Definition endswith (s p : str) : bool := startswith (rev s) (rev p).

(** [p in s] *)
Fixpoint contains (s p : str) : bool :=
  startswith s p ||
  match s with
  | [] => false
  | _ :: s' => contains s' p
  end.

(** [s.split(sep)] for a one-character separator: never an empty list. *)
Fixpoint split (sep : char) (s : str) : list str :=
  match s with
  | [] => [[]]
  | c :: s' =>
      if (c =? sep)%N then [] :: split sep s'
      else match split sep s' with
           | [] => [[c]]
           | l :: ls => (c :: l) :: ls
           end
  end.

(** [sep.join(parts)] *)
Fixpoint join (sep : str) (parts : list str) : str :=
  match parts with
  | [] => []
  | [x] => x
  | x :: rest => x ++ sep ++ join sep rest
  end.

(** [str.isspace] on one code point: the characters [str.strip()] removes. *)
Definition isspace (c : char) : bool :=
  ((9 <=? c) && (c <=? 13) || (28 <=? c) && (c <=? 32)
   || (c =? 133) || (c =? 160) || (c =? 5760)
   || (8192 <=? c) && (c <=? 8202)
   || (c =? 8232) || (c =? 8233) || (c =? 8239) || (c =? 8287)
   || (c =? 12288))%N.

Fixpoint lstrip (s : str) : str :=
  match s with
  | [] => []
  | c :: s' => if isspace c then lstrip s' else s
  end.

Definition rstrip (s : str) : str := rev (lstrip (rev s)).

(** [s.strip()] *)
Definition strip (s : str) : str := rstrip (lstrip s).

(** Truthiness of a [str]: non-empty. *)
Definition nonempty (s : str) : bool :=
  match s with [] => false | _ :: _ => true end.

(** [str(i)] for a non-negative integer. *)
Definition str_of_nat (n : nat) : str :=
  map N_of_ascii (list_ascii_of_string (NilZero.string_of_uint (Nat.to_uint n))).

(** [sum(len(l) for l in ls)] *)
Definition total_len (ls : list str) : nat :=
  fold_right (fun l acc => List.length l + acc) 0 ls.

(** [str.lower] restricted to ASCII letters; used to run examples. *)
Definition ascii_lower (s : str) : str :=
  map (fun c => if ((65 <=? c) && (c <=? 90))%N then (c + 32)%N else c) s.

End PyStr.
Import PyStr.

(** [Optional[str]] and its truthiness: [None] and [""] are falsy. *)
Definition py_text := option str.

Definition truthy (t : py_text) : bool :=
  match t with
  | None => false
  | Some s => nonempty s
  end.

(** ** The world outside the program *)

(** What a call into the file system or a library does: it returns, or it
    raises [ImportError], or it raises some other [Exception]; [msg] is
    [str(e)]. *)
Inductive exn :=
| ImportError (msg : str)
| OtherError (msg : str).

Definition exn_str (e : exn) : str :=
  match e with ImportError m => m | OtherError m => m end.

Inductive result (A : Type) :=
| Ok (a : A)
| Raise (e : exn).
Arguments Raise {A} e.

(** The three backends, in the order of the ['auto'] list. *)
Inductive backend := Pdfplumber | Pypdf | Pdfminer.

Definition backend_name (b : backend) : str :=
  match b with
  | Pdfplumber => u8 "pdfplumber"
  | Pypdf => u8 "pypdf"
  | Pdfminer => u8 "pdfminer"
  end.

(** A page as the page-oriented libraries expose it: [page.extract_text()]
    returns a text (possibly [None] or empty) or raises. *)
Definition page := result py_text.

Record Env := {
  (** [os.path.exists(path)] *)
  path_exists : str -> bool;
  (** [open(path, 'rb')] followed by [f.read(5)]: the bytes of the file,
      of which [read(5)] takes the first five, or the exception raised. *)
  open_rb : str -> result (list byte);
  (** [os.path.getsize(path)] *)
  getsize : str -> N;
  (** [import pdfplumber] and [pdfplumber.open(path).pages] *)
  import_pdfplumber : result unit;
  pdfplumber_open : str -> result (list page);
  (** [from pypdf import PdfReader] and [PdfReader(path).pages] *)
  import_pypdf : result unit;
  PdfReader : str -> result (list page);
  (** [from pdfminer.high_level import extract_text] and
      [extract_text(path)] *)
  import_pdfminer : result unit;
  extract_text : str -> result py_text
}.

(** ** Log records and the trace *)

Inductive level := INFO | WARNING | ERROR.

(** One constructor per [logger] call site of the source; the fields are
    the values interpolated into the message. *)
Inductive message :=
| MsgUsing (b : backend) (pdf_path : str)
| MsgProgress (i total_pages : nat)
| MsgAllPagesHaveText (b : backend)
| MsgSomePagesNoText (b : backend)
| MsgNotInstalled (b : backend)
| MsgExtractFailed (b : backend) (e : str)
| MsgMinerDone
| MsgMinerNoText
| MsgInvalid (msg : str)
| MsgStart (pdf_path : str) (size : N)
| MsgSuccess (method_name : str)
| MsgTooLittle (method_name : str)
| MsgDone (non_empty_lines chars : nat)
| MsgAllFailed.

(** [Call b] marks the invocation of a backend adapter by the orchestrator;
    it is not a log record. *)
Inductive event :=
| Call (b : backend)
| Log (lvl : level) (m : message).

Definition trace := list event.

(** ** Backend adapters *)

(** The two [except] clauses shared by the three adapters: [ImportError]
    is reported as "not installed", anything else as "extraction failed"
    with [str(e)]; both return [None]. *)
Definition on_error (b : backend) (e : exn) (log : trace) : py_text * trace :=
  match e with
  | ImportError _ => (None, log ++ [Log ERROR (MsgNotInstalled b)])
  | OtherError m => (None, log ++ [Log ERROR (MsgExtractFailed b m)])
  end.

(** [f"=== Page {i} ==="] *)
Definition page_marker (i : nat) : str :=
  u8 "=== Page " ++ str_of_nat i ++ u8 " ===".

Definition no_text_tag : str := u8 "无文本".

(** The element appended to [text_parts] for page [i]. *)
Definition page_part (i : nat) (page_text : py_text) : str :=
  match page_text with
  | Some (c :: s) => page_marker i ++ [NL] ++ (c :: s) ++ [NL]
  | _ => page_marker i ++ u8 " [" ++ no_text_tag ++ u8 "]" ++ [NL]
  end.

(** [for i, page in enumerate(pages, 1)]: the loop stops at the first page
    whose [extract_text()] raises. *)
Fixpoint page_loop (pages : list page) (i total_pages : nat)
    (text_parts : list str) (log : trace) : result (list str) * trace :=
  match pages with
  | [] => (Ok text_parts, log)
  | Raise e :: _ => (Raise e, log)
  | Ok page_text :: rest =>
      let text_parts' := text_parts ++ [page_part i page_text] in
      let log' :=
        if (i mod 10 =? 0) || (i =? total_pages)
        then log ++ [Log INFO (MsgProgress i total_pages)]
        else log in
      page_loop rest (S i) total_pages text_parts' log'
  end.

(** The body common to [extract_with_pdfplumber] and [extract_with_pypdf],
    which differ in the library they import and open. *)
Definition extract_paged (b : backend) (import_lib : result unit)
    (open_pages : str -> result (list page)) (pdf_path : str)
    : py_text * trace :=
  match import_lib with
  | Raise e => on_error b e []
  | Ok _ =>
      let log := [Log INFO (MsgUsing b pdf_path)] in
      match open_pages pdf_path with
      | Raise e => on_error b e log
      | Ok pages =>
          match page_loop pages 1 (List.length pages) [] log with
          | (Raise e, log') => on_error b e log'
          | (Ok text_parts, log') =>
              let summary :=
                if negb (existsb (fun part => contains part no_text_tag) text_parts)
                then Log INFO (MsgAllPagesHaveText b)
                else Log WARNING (MsgSomePagesNoText b) in
              (Some (List.concat text_parts), log' ++ [summary])
          end
      end
  end.

Definition extract_with_pdfplumber (env : Env) (pdf_path : str) : py_text * trace :=
  extract_paged Pdfplumber (import_pdfplumber env) (pdfplumber_open env) pdf_path.

Definition extract_with_pypdf (env : Env) (pdf_path : str) : py_text * trace :=
  extract_paged Pypdf (import_pypdf env) (PdfReader env) pdf_path.

Definition chars_per_page : nat := 2000.

Definition estimated_marker : str := u8 "=== Page 估计 ===".

(** [for line in lines]: returns [(pages, current_page)] as they stand when
    the loop ends. *)
Fixpoint paginate (lines current_page pages : list str) : list str * list str :=
  match lines with
  | [] => (pages, current_page)
  | line :: rest =>
      let current_page' := current_page ++ [line] in
      if chars_per_page <=? total_len current_page'
      then paginate rest [] (pages ++ [estimated_marker ++ join [NL] current_page'])
      else paginate rest current_page' pages
  end.

(** The page list built from the text of pdfminer, the trailing
    [if current_page:] included. *)
Definition estimated_pages (text : str) : list str :=
  let '(pages, current_page) := paginate (split NL text) [] [] in
  match current_page with
  | [] => pages
  | _ :: _ => pages ++ [estimated_marker ++ join [NL] current_page]
  end.

Definition extract_with_pdfminer (env : Env) (pdf_path : str) : py_text * trace :=
  match import_pdfminer env with
  | Raise e => on_error Pdfminer e []
  | Ok _ =>
      let log := [Log INFO (MsgUsing Pdfminer pdf_path)] in
      match extract_text env pdf_path with
      | Raise e => on_error Pdfminer e log
      | Ok (Some (c :: s)) =>
          (Some (join [NL; NL] (estimated_pages (c :: s))),
           log ++ [Log INFO MsgMinerDone])
      | Ok _ => (None, log ++ [Log WARNING MsgMinerNoText])
      end
  end.

(** ** Quality judge (the test inlined in the loop of [extract_pdf_text]) *)

(** [extracted_text and extracted_text.strip()] *)
Definition has_text (extracted_text : py_text) : bool :=
  match extracted_text with
  | Some s => nonempty s && nonempty (strip s)
  | None => false
  end.

(** [line.strip() and not line.startswith('===')] *)
Definition is_content_line (line : str) : bool :=
  nonempty (strip line) && negb (startswith line (u8 "===")).

Definition content_lines (extracted_text : str) : list str :=
  filter is_content_line (split NL extracted_text).

(** [len(content_lines) > 5] *)
Definition enough_content (extracted_text : str) : bool :=
  5 <? List.length (content_lines extracted_text).

Definition is_acceptable (extracted_text : py_text) : bool :=
  match extracted_text with
  | Some s => has_text extracted_text && enough_content s
  | None => false
  end.

(** ** Validator and orchestrator *)

Definition pdf_signature : list byte := [x25; x50; x44; x46].

(** [header.startswith(b'%PDF')] *)
Fixpoint bytes_startswith (s p : list byte) : bool :=
  match p, s with
  | [], _ => true
  | y :: p', x :: s' => Byte.eqb x y && bytes_startswith s' p'
  | _ :: _, [] => false
  end.

Definition reason_missing (pdf_path : str) : str := u8 "文件不存在: " ++ pdf_path.
Definition reason_not_pdf (pdf_path : str) : str := u8 "文件不是PDF格式: " ++ pdf_path.
Definition reason_no_signature : str := u8 "文件不是有效的PDF（缺少PDF签名）".
Definition reason_read_failed (e : exn) : str := u8 "文件读取失败: " ++ exn_str e.
Definition reason_valid : str := u8 "文件有效".

Section Program.

(** [str.lower] of the interpreter: the full Unicode case mapping, which
    the program only applies to the path. *)
Variable lower : str -> str.

Definition check_pdf_file (env : Env) (pdf_path : str) : bool * str :=
  if negb (path_exists env pdf_path) then (false, reason_missing pdf_path)
  else if negb (endswith (lower pdf_path) (u8 ".pdf"))
  then (false, reason_not_pdf pdf_path)
  else
    match open_rb env pdf_path with
    | Ok bytes =>
        let header := firstn 5 bytes in
        if negb (bytes_startswith header pdf_signature)
        then (false, reason_no_signature)
        else (true, reason_valid)
    | Raise e => (false, reason_read_failed e)
    end.

(** The [if]/[elif] chain at the head of the loop body: an unknown name
    takes no branch and leaves [extracted_text] as it was. *)
Definition dispatch (env : Env) (pdf_path method_name : str)
    (extracted_text : py_text) : py_text * trace :=
  if str_eqb method_name (u8 "pdfplumber") then
    let '(t, log) := extract_with_pdfplumber env pdf_path in (t, Call Pdfplumber :: log)
  else if str_eqb method_name (u8 "pypdf") then
    let '(t, log) := extract_with_pypdf env pdf_path in (t, Call Pypdf :: log)
  else if str_eqb method_name (u8 "pdfminer") then
    let '(t, log) := extract_with_pdfminer env pdf_path in (t, Call Pdfminer :: log)
  else (extracted_text, []).

(** [for method_name in methods], with [extracted_text] carried from one
    iteration to the next; returning without recursion is the [break]. *)
Fixpoint try_methods (env : Env) (pdf_path : str) (methods : list str)
    (extracted_text : py_text) : py_text * trace :=
  match methods with
  | [] => (extracted_text, [])
  | method_name :: rest =>
      let '(extracted_text1, log1) := dispatch env pdf_path method_name extracted_text in
      match extracted_text1 with
      | Some s =>
          if has_text extracted_text1 then
            if enough_content s
            then (extracted_text1, log1 ++ [Log INFO (MsgSuccess method_name)])
            else
              let '(r, log2) := try_methods env pdf_path rest None in
              (r, log1 ++ Log WARNING (MsgTooLittle method_name) :: log2)
          else
            let '(r, log2) := try_methods env pdf_path rest extracted_text1 in
            (r, log1 ++ log2)
      | None =>
          let '(r, log2) := try_methods env pdf_path rest None in
          (r, log1 ++ log2)
      end
  end.

Definition auto_methods : list str :=
  [u8 "pdfplumber"; u8 "pypdf"; u8 "pdfminer"].

Definition extract_pdf_text (env : Env) (pdf_path method : str) : py_text * trace :=
  let '(is_valid, msg) := check_pdf_file env pdf_path in
  if negb is_valid then (None, [Log ERROR (MsgInvalid msg)])
  else
    let log0 := [Log INFO (MsgStart pdf_path (getsize env pdf_path))] in
    let methods := if str_eqb method (u8 "auto") then auto_methods else [method] in
    let '(extracted_text, log1) := try_methods env pdf_path methods None in
    match extracted_text with
    | Some (c :: s) =>
        let non_empty_lines := filter (fun line => nonempty (strip line)) (split NL (c :: s)) in
        (extracted_text,
         log0 ++ log1 ++ [Log INFO (MsgDone (List.length non_empty_lines) (List.length (c :: s)))])
    | _ => (extracted_text, log0 ++ log1 ++ [Log ERROR MsgAllFailed])
    end.

End Program.

(** ** Observations on values and traces *)

(** The backend behind each name of the ['auto'] list. *)
Definition run_backend (env : Env) (pdf_path : str) (b : backend) : py_text * trace :=
  match b with
  | Pdfplumber => extract_with_pdfplumber env pdf_path
  | Pypdf => extract_with_pypdf env pdf_path
  | Pdfminer => extract_with_pdfminer env pdf_path
  end.

Definition backend_result (env : Env) (pdf_path : str) (b : backend) : py_text :=
  fst (run_backend env pdf_path b).

Definition priority : list backend := [Pdfplumber; Pypdf; Pdfminer].

(** Number of content lines of a backend result; [None] has none. *)
Definition content_count (t : py_text) : nat :=
  match t with
  | Some s => List.length (content_lines s)
  | None => 0
  end.

(** The backends invoked, in order of invocation. *)
Fixpoint calls (tr : trace) : list backend :=
  match tr with
  | [] => []
  | Call b :: tr' => b :: calls tr'
  | Log _ _ :: tr' => calls tr'
  end.

(** Log records that give the reason a backend did not deliver: not
    installed, extraction failed, no text (pdfminer), too little content. *)
Definition is_reason (e : event) : bool :=
  match e with
  | Log _ (MsgNotInstalled _) => true
  | Log _ (MsgExtractFailed _ _) => true
  | Log _ MsgMinerNoText => true
  | Log _ (MsgTooLittle _) => true
  | _ => false
  end.

Definition reasons (tr : trace) : list event := filter is_reason tr.

(** Reasons logged from the head of [tr] up to the next backend call. *)
Fixpoint reasons_until_call (tr : trace) : nat :=
  match tr with
  | [] => 0
  | Call _ :: _ => 0
  | e :: tr' => (if is_reason e then 1 else 0) + reasons_until_call tr'
  end.

(** For each backend call of the trace, the number of reasons logged
    between it and the next call (or the end). *)
Fixpoint reasons_per_call (tr : trace) : list nat :=
  match tr with
  | [] => []
  | Call _ :: tr' => reasons_until_call tr' :: reasons_per_call tr'
  | Log _ _ :: tr' => reasons_per_call tr'
  end.

(** The backends a method selector designates: the whole priority list for
    ['auto'], the named backend for one of the three names, none for any
    other string. *)
Definition selected (method : str) : list backend :=
  if str_eqb method (u8 "auto") then priority
  else if str_eqb method (u8 "pdfplumber") then [Pdfplumber]
  else if str_eqb method (u8 "pypdf") then [Pypdf]
  else if str_eqb method (u8 "pdfminer") then [Pdfminer]
  else [].

(** What the specification asks of a failure value: that the per-method
    reasons can be read off it, one per attempted backend.  [carried] is the
    reading; the requirement is only on requests that end without an
    accepted result. *)
Definition failure_carries_reasons (lower : str -> str)
    (carried : py_text -> list event) : Prop :=
  forall env pdf_path method,
    fst (check_pdf_file lower env pdf_path) = true ->
    is_acceptable (fst (extract_pdf_text lower env pdf_path method)) = false ->
    List.length (carried (fst (extract_pdf_text lower env pdf_path method)))
    = List.length (calls (snd (extract_pdf_text lower env pdf_path method))).

(** ** Notions used in the statements *)

(** A segment as [extract_with_pdfminer] emits it: the "estimated" marker
    followed by the accumulated lines joined by newlines. *)
Definition estimated_segment (chunk : list str) : str :=
  estimated_marker ++ join [NL] chunk.

(** A run of lines closed by the threshold: with its last line the character
    count reaches [chars_per_page], without it the count is still below. *)
Definition full_chunk (chunk : list str) : Prop :=
  chunk <> [] /\
  chars_per_page <= total_len chunk /\
  total_len (removelast chunk) < chars_per_page.

(** The chunks into which [estimated_pages] cuts the lines of a text. *)
Definition chunks_of (full : list (list str)) (last : list str) : list (list str) :=
  full ++ match last with [] => [] | _ :: _ => [last] end.

(** The parts appended for pages numbered from [i]. *)
Fixpoint segments (i : nat) (texts : list py_text) : list str :=
  match texts with
  | [] => []
  | t :: rest => page_part i t :: segments (S i) rest
  end.

(** The text returned for the pages [texts] keeps every page: it is the
    concatenation of one segment per page, the [k]-th (from 0) opening with
    the marker of page [k+1] and holding either the page's text or the
    "no text" tag. *)
Definition keeps_every_page (texts : list py_text) (r : py_text) : Prop :=
  exists segs,
    r = Some (List.concat segs) /\
    List.length segs = List.length texts /\
    forall k t, nth_error texts k = Some t ->
      exists seg,
        nth_error segs k = Some seg /\
        startswith seg (page_marker (S k)) = true /\
        (truthy t = false ->
           seg = page_marker (S k) ++ u8 " [" ++ no_text_tag ++ u8 "]" ++ [NL]) /\
        (forall s, t = Some s -> nonempty s = true ->
           seg = page_marker (S k) ++ [NL] ++ s ++ [NL]).

(** Number of reasons an adapter logs: one when it returns [None], none when
    it returns a text. *)
Definition own_reasons (r : py_text) : nat :=
  match r with None => 1 | Some _ => 0 end.

(** What one rejected attempt leaves in the trace. *)
Definition attempt_log (env : Env) (pdf_path : str) (b : backend) : trace :=
  Call b :: snd (run_backend env pdf_path b) ++
  (if has_text (backend_result env pdf_path b)
   then [Log WARNING (MsgTooLittle (backend_name b))]
   else []).

(** The value of [extracted_text] after rejected attempts on [bs]. *)
Fixpoint carried_text (env : Env) (pdf_path : str) (bs : list backend)
    (t0 : py_text) : py_text :=
  match bs with
  | [] => t0
  | b :: rest =>
      let r := backend_result env pdf_path b in
      carried_text env pdf_path rest (if has_text r then None else r)
  end.

(** The list the loop runs over. *)
Definition methods_of (method : str) : list str :=
  if str_eqb method (u8 "auto") then auto_methods else [method].

(** ** Sample documents *)

Definition five_lines : str := u8 "=== Page 1 ===
alpha
beta

gamma
delta
epsilon
".

Definition six_lines : str := five_lines ++ u8 "zeta".

Definition pdf_bytes : list byte := [x25; x50; x44; x46; x2d; x31; x2e; x37].

(** A document that exists, carries the signature, and on which the three
    libraries, all installed, answer as given. *)
Definition sample_env (plumber pypdf : result (list page)) (miner : result py_text) : Env :=
  {| path_exists := fun _ => true;
     open_rb := fun _ => Ok pdf_bytes;
     getsize := fun _ => 8%N;
     import_pdfplumber := Ok tt;
     pdfplumber_open := fun _ => plumber;
     import_pypdf := Ok tt;
     PdfReader := fun _ => pypdf;
     import_pdfminer := Ok tt;
     extract_text := fun _ => miner |}.

Definition long_text : str :=
  repeat 97%N 1200 ++ [NL] ++ repeat 98%N 900 ++ [NL] ++ u8 "tail".

Definition three_pages : list py_text := [Some (u8 "first"); None; Some (u8 "third")].

Definition two_line_page (a b : string) : py_text := Some (u8 a ++ [NL] ++ u8 b).

(** A three-page document: pdfplumber finds no text on any page, pypdf
    finds two lines on each, and pdfminer would find text too. *)
Definition scanned_then_text : Env :=
  sample_env
    (Ok [Ok None; Ok (Some []); Ok None])
    (Ok [Ok (two_line_page "one" "two"); Ok (two_line_page "three" "four");
         Ok (two_line_page "five" "six")])
    (Ok (Some long_text)).

(** No library installed: every adapter stops at its [import]. *)
Definition nothing_installed : Env :=
  {| path_exists := fun _ => true;
     open_rb := fun _ => Ok pdf_bytes;
     getsize := fun _ => 8%N;
     import_pdfplumber := Raise (ImportError (u8 "No module named 'pdfplumber'"));
     pdfplumber_open := fun _ => Ok [];
     import_pypdf := Raise (ImportError (u8 "No module named 'pypdf'"));
     PdfReader := fun _ => Ok [];
     import_pdfminer := Raise (ImportError (u8 "No module named 'pdfminer'"));
     extract_text := fun _ => Ok None |}.

(** A document without pages: the page-oriented backends return the empty
    string, pdfminer finds no text. *)
Definition no_pages : Env := sample_env (Ok []) (Ok []) (Ok None).

(** A file system with one entry: whether the path exists and what opening
    it gives; no library is installed. *)
Definition file_env (present : bool) (content : result (list byte)) : Env :=
  {| path_exists := fun _ => present;
     open_rb := fun _ => content;
     getsize := fun _ => 0%N;
     import_pdfplumber := import_pdfplumber nothing_installed;
     pdfplumber_open := fun _ => Ok [];
     import_pypdf := import_pypdf nothing_installed;
     PdfReader := fun _ => Ok [];
     import_pdfminer := import_pdfminer nothing_installed;
     extract_text := fun _ => Ok None |}.

(** The bytes of [<html>...]. *)
Definition html_bytes : list byte := [x3c; x68; x74; x6d; x6c; x3e].

Definition is_a_directory : exn :=
  OtherError (u8 "[Errno 21] Is a directory: 'folder.pdf'").

(** ** Saving the text and the command line ([save_text_to_file], [main]) *)

Definition SLASH : char := 47%N.
Definition DOT : char := 46%N.

(** [s.rfind(c)]: the index of the last occurrence of [c]; [None] stands
    for [-1]. *)
Fixpoint rfind (c : char) (s : str) : option nat :=
  match s with
  | [] => None
  | x :: s' =>
      match rfind c s' with
      | Some i => Some (S i)
      | None => if (x =? c)%N then Some 0 else None
      end
  end.

(** [s.rstrip('/')] *)
Fixpoint lstrip_slash (s : str) : str :=
  match s with
  | [] => []
  | c :: s' => if (c =? SLASH)%N then lstrip_slash s' else s
  end.

Definition rstrip_slash (s : str) : str := rev (lstrip_slash (rev s)).

(** [os.path.basename] of [posixpath]: [i = p.rfind('/') + 1; p[i:]]. *)
Definition basename (p : str) : str :=
  match rfind SLASH p with
  | Some i => skipn (S i) p
  | None => p
  end.

(** [os.path.dirname] of [posixpath]: the head up to the last slash, its
    trailing slashes removed unless it consists of slashes only. *)
Definition dirname (p : str) : str :=
  let head := match rfind SLASH p with
              | Some i => firstn (S i) p
              | None => []
              end in
  if nonempty head && negb (forallb (fun c => (c =? SLASH)%N) head)
  then rstrip_slash head
  else head.

(** The [while] loop of [genericpath._splitext]: is there a character other
    than a dot between the start of the file name and the last dot? *)
Fixpoint has_non_dot (slice : str) : bool :=
  match slice with
  | [] => false
  | c :: rest => if negb (c =? DOT)%N then true else has_non_dot rest
  end.

(** [os.path.splitext] of [posixpath]: split at the last dot when it comes
    after the last slash and is not one of the leading dots of the name. *)
Definition splitext (p : str) : str * str :=
  match rfind DOT p with
  | Some dotIndex =>
      let filenameIndex := match rfind SLASH p with
                           | Some sepIndex => S sepIndex
                           | None => 0
                           end in
      if (filenameIndex <=? dotIndex)
         && has_non_dot (firstn (dotIndex - filenameIndex) (skipn filenameIndex p))
      then (firstn dotIndex p, skipn dotIndex p)
      else (p, [])
  | None => (p, [])
  end.

(** The output side of the file system: how it answers the three calls of
    [save_text_to_file]. *)
Record OutEnv := {
  (** [os.path.exists(output_dir)] *)
  dir_exists : str -> bool;
  (** [os.makedirs(output_dir)] *)
  makedirs : str -> result unit;
  (** [open(output_path, 'w', encoding='utf-8')] and [f.write(text)] *)
  write_text : str -> str -> result unit
}.

(** Log records and prints of [save_text_to_file] and [main]. *)
Inductive out_message :=
| MsgSaved (output_path : str)
| MsgSaveFailed (e : str)
| MsgTaskDone
| MsgSaveError
| MsgExtractError.

(** What the output side does, in program order: the calls that change the
    file system, the log records, and what is printed. *)
Inductive out_event :=
| Makedirs (output_dir : str)
| Write (output_path text : str)
| OutLog (lvl : level) (m : out_message)
| PrintSaved (output_path : str)
| PrintHelp.

Definition save_text_to_file (out : OutEnv) (text output_path : str)
    : bool * list out_event :=
  let output_dir := dirname output_path in
  let '(made, tr) :=
    if nonempty output_dir && negb (dir_exists out output_dir)
    then (makedirs out output_dir, [Makedirs output_dir])
    else (Ok tt, []) in
  match made with
  | Raise e => (false, tr ++ [OutLog ERROR (MsgSaveFailed (exn_str e))])
  | Ok _ =>
      match write_text out output_path text with
      | Raise e =>
          (false, tr ++ [Write output_path text; OutLog ERROR (MsgSaveFailed (exn_str e))])
      | Ok _ =>
          (true, tr ++ [Write output_path text; OutLog INFO (MsgSaved output_path)])
      end
  end.

(** The parsed command line.  [output] is [None] when [-o] is absent;
    [verbose] only lowers the logger's threshold, below which the program
    logs nothing. *)
Record Args := {
  pdf_file : str;
  output : option str;
  method_arg : str;
  verbose : bool
}.

(** [f"{pdf_name}_extracted.txt"] with
    [pdf_name = os.path.splitext(os.path.basename(args.pdf_file))[0]]. *)
Definition default_output (pdf_file : str) : str :=
  fst (splitext (basename pdf_file)) ++ u8 "_extracted.txt".

(** [if args.output: ... else: ...] *)
Definition output_path_of (args : Args) : str :=
  match output args with
  | Some (c :: s) => c :: s
  | _ => default_output (pdf_file args)
  end.

(** [main] after [parse_args]: the exit code passed to [sys.exit], the
    trace of the extraction and the events of the output side. *)
Definition main (lower : str -> str) (env : Env) (out : OutEnv) (args : Args)
    : nat * (trace * list out_event) :=
  let output_path := output_path_of args in
  let '(text, tr) := extract_pdf_text lower env (pdf_file args) (method_arg args) in
  match text with
  | Some (c :: s) =>
      let '(saved, otr) := save_text_to_file out (c :: s) output_path in
      if saved
      then (0, (tr, otr ++ [OutLog INFO MsgTaskDone; PrintSaved output_path]))
      else (1, (tr, otr ++ [OutLog ERROR MsgSaveError]))
  | _ => (1, (tr, [OutLog ERROR MsgExtractError; PrintHelp]))
  end.

(** The file-system calls among the events of the output side. *)
Definition is_fs_call (e : out_event) : bool :=
  match e with
  | Makedirs _ | Write _ _ => true
  | _ => false
  end.

(** ** Further notions used in the statements *)

(** The [(i, total)] pairs of the progress records of a trace. *)
Fixpoint progress_of (tr : trace) : list (nat * nat) :=
  match tr with
  | [] => []
  | Log _ (MsgProgress i total) :: tr' => (i, total) :: progress_of tr'
  | _ :: tr' => progress_of tr'
  end.

(** The page numbers at which progress is logged for [total] pages. *)
Definition milestones (total : nat) : list nat :=
  filter (fun i => (i mod 10 =? 0) || (i =? total)) (seq 1 total).

(** Content lines of the page texts, page by page. *)
Definition pages_content_count (texts : list py_text) : nat :=
  list_sum (map content_count texts).

(** A page text on which the "no text" summary fires: it is missing or
    empty, or it contains the tag itself. *)
Definition triggers_no_text (t : py_text) : bool :=
  match t with
  | Some (c :: s) => contains (c :: s) no_text_tag
  | _ => true
  end.

(** The record an adapter logs when [e] is raised inside its [try]:
    "not installed" for an [ImportError], "extraction failed" with [str(e)]
    for anything else. *)
Definition failure_record (b : backend) (e : exn) : event :=
  Log ERROR (match e with
             | ImportError _ => MsgNotInstalled b
             | OtherError m => MsgExtractFailed b m
             end).

(** [e] is the first exception raised in a page-oriented adapter: by the
    import, by opening the document, or by a page after [texts] were read. *)
Definition paged_raises (import_lib : result unit) (opened : result (list page))
    (e : exn) : Prop :=
  import_lib = Raise e \/
  (import_lib = Ok tt /\ opened = Raise e) \/
  (import_lib = Ok tt /\
   exists texts rest, opened = Ok (map (@Ok py_text) texts ++ Raise e :: rest)).

(** Six lines of text, one paragraph. *)
Definition six_plain_lines : str := u8 "a
b
c
d
e
f".

(** Two pages with text, the second quoting the tag. *)
Definition tag_in_text : list py_text :=
  [Some (u8 "chapter one"); Some (u8 "参见 无文本 一节")].

(** A document whose third page cannot be read. *)
Definition third_page_broken : Env :=
  sample_env
    (Ok [Ok (Some (u8 "one")); Ok (Some (u8 "two"));
         Raise (OtherError (u8 "bad stream")); Ok (Some (u8 "four"))])
    (Ok []) (Ok None).

(** An output side on which everything succeeds, and one on which the
    directory cannot be created. *)
Definition out_ok : OutEnv :=
  {| dir_exists := fun _ => false;
     makedirs := fun _ => Ok tt;
     write_text := fun _ _ => Ok tt |}.

Definition out_readonly : OutEnv :=
  {| dir_exists := fun _ => false;
     makedirs := fun _ => Raise (OtherError (u8 "[Errno 13] Permission denied"));
     write_text := fun _ _ => Ok tt |}.

(** ** Strings: trimming and splitting *)

Lemma lstrip_nil_iff (s : str) : lstrip s = [] <-> forallb isspace s = true.
Proof.
  induction s as [|c s IH]; simpl.
  - tauto.
  - destruct (isspace c); simpl.
    + exact IH.
    + split; discriminate.
Qed.

Lemma lstrip_head (s : str) :
  lstrip s = [] \/ exists c r, lstrip s = c :: r /\ isspace c = false.
Proof.
  induction s as [|c s IH]; simpl.
  - now left.
  - destruct (isspace c) eqn:E.
    + exact IH.
    + right. now exists c, s.
Qed.

Lemma forallb_rev (f : char -> bool) (s : str) :
  forallb f (rev s) = forallb f s.
Proof.
  induction s as [|c s IH]; simpl.
  - reflexivity.
  - rewrite forallb_app, IH. simpl. rewrite andb_true_r. apply andb_comm.
Qed.

Lemma strip_nil_iff (s : str) : strip s = [] <-> forallb isspace s = true.
Proof.
  unfold strip, rstrip. split.
  - intros H.
    assert (H1 : lstrip (rev (lstrip s)) = []).
    { destruct (lstrip (rev (lstrip s))) as [|x l]; [reflexivity|].
      simpl in H. now destruct (rev l). }
    apply lstrip_nil_iff in H1. rewrite forallb_rev in H1.
    destruct (lstrip_head s) as [E | (c & r & E & Hc)].
    + now apply lstrip_nil_iff.
    + rewrite E in H1. simpl in H1. rewrite Hc in H1. discriminate.
  - intros H. apply lstrip_nil_iff in H. rewrite H. reflexivity.
Qed.

Lemma nonempty_strip_iff (s : str) :
  nonempty (strip s) = true <-> exists c, In c s /\ isspace c = false.
Proof.
  split.
  - intros H. destruct (forallb isspace s) eqn:E.
    + apply strip_nil_iff in E. rewrite E in H. discriminate.
    + clear H. induction s as [|c s IH]; simpl in E; [discriminate|].
      destruct (isspace c) eqn:Ec.
      * destruct (IH E) as (d & Hd & Hs). exists d. simpl. tauto.
      * exists c. simpl. tauto.
  - intros (c & Hin & Hc). destruct (strip s) eqn:E; [|reflexivity].
    apply strip_nil_iff in E. rewrite forallb_forall in E.
    rewrite (E c Hin) in Hc. discriminate.
Qed.

Lemma startswith_prefix (p r : str) : startswith (p ++ r) p = true.
Proof.
  induction p as [|c p IH]; simpl; [now destruct r|].
  now rewrite N.eqb_refl, IH.
Qed.

Lemma split_not_nil (sep : char) (s : str) : split sep s <> [].
Proof.
  destruct s as [|c s]; simpl; [discriminate|].
  destruct (c =? sep)%N; [discriminate|].
  destruct (split sep s); discriminate.
Qed.

Lemma split_chars (sep : char) (s l : str) (c : char) :
  In l (split sep s) -> In c l -> In c s.
Proof.
  revert l. induction s as [|x s IH]; simpl; intros l Hl Hc.
  - destruct Hl as [<- | []]. destruct Hc.
  - destruct (x =? sep)%N.
    + destruct Hl as [<- | Hl]; [destruct Hc|]. right. eapply IH; eauto.
    + destruct (split sep s) as [|l0 ls] eqn:E.
      * destruct Hl as [<- | []]. destruct Hc as [-> | []]. now left.
      * destruct Hl as [<- | Hl].
        -- destruct Hc as [-> | Hc]; [now left|]. right. apply (IH l0); simpl; auto.
        -- right. apply (IH l); simpl; auto.
Qed.

(** A text with a content line is neither empty nor blank. *)
Lemma content_line_has_text (s : str) :
  content_lines s <> [] -> has_text (Some s) = true.
Proof.
  unfold content_lines. intros H.
  destruct (filter is_content_line (split NL s)) as [|l ls] eqn:E; [congruence|].
  assert (Hl : In l (filter is_content_line (split NL s))) by (rewrite E; now left).
  apply filter_In in Hl. destruct Hl as [Hin Hc].
  unfold is_content_line in Hc. apply andb_true_iff in Hc. destruct Hc as [Hc _].
  apply nonempty_strip_iff in Hc. destruct Hc as (c & Hcl & Hsp).
  assert (Hs : In c s) by (eapply split_chars; eauto).
  simpl. apply andb_true_iff. split.
  - destruct s; [destruct Hs | reflexivity].
  - apply nonempty_strip_iff. eauto.
Qed.

Lemma acceptable_iff_count (t : py_text) :
  is_acceptable t = true <-> 6 <= content_count t.
Proof.
  destruct t as [s|]; unfold is_acceptable, content_count;
    [|split; [discriminate | lia]].
  unfold enough_content. rewrite andb_true_iff, Nat.ltb_lt. split.
  - intros [_ H]. lia.
  - intros H. split; [|lia].
    apply content_line_has_text.
    destruct (content_lines s); simpl in H; [lia | discriminate].
Qed.

Lemma not_acceptable_iff_count (t : py_text) :
  is_acceptable t = false <-> content_count t < 6.
Proof.
  pose proof (acceptable_iff_count t) as H.
  destruct (is_acceptable t).
  - split; [discriminate|]. intros G.
    assert (6 <= content_count t) by (apply H; reflexivity). lia.
  - split; [|reflexivity]. intros _.
    destruct (Nat.le_gt_cases 6 (content_count t)) as [G|G]; [|exact G].
    apply H in G. discriminate.
Qed.

(** ** The quality judge *)

Lemma content_lines_spec (s l : str) :
  In l (content_lines s) <->
  In l (split NL s) /\ strip l <> [] /\ startswith l (u8 "===") = false.
Proof.
  unfold content_lines. rewrite filter_In. unfold is_content_line.
  rewrite andb_true_iff, negb_true_iff.
  assert (E : nonempty (strip l) = true <-> strip l <> []).
  { destruct (strip l); simpl; split; congruence. }
  rewrite E. tauto.
Qed.

(** C2. A result that is empty or all whitespace is rejected; any other
    result is accepted exactly when it has more than 5 content lines, a
    content line being a line of the text that is non-empty after trimming
    and does not start with the marker prefix [===].  So 5 content lines
    are rejected and 6 are accepted. *)
Theorem quality_judge_policy (s : str) :
  is_acceptable None = false /\
  (forallb isspace s = true -> is_acceptable (Some s) = false) /\
  (forallb isspace s = false ->
     is_acceptable (Some s) = (5 <? List.length (content_lines s))) /\
  (forall l, In l (content_lines s) <->
     In l (split NL s) /\ strip l <> [] /\ startswith l (u8 "===") = false) /\
  (List.length (content_lines s) = 5 -> is_acceptable (Some s) = false) /\
  (List.length (content_lines s) = 6 -> is_acceptable (Some s) = true).
Proof.
  split; [reflexivity|].
  split.
  { intros H. apply strip_nil_iff in H. unfold is_acceptable, has_text.
    rewrite H. simpl. now rewrite andb_false_r. }
  split.
  { intros H. unfold is_acceptable, enough_content.
    assert (G : has_text (Some s) = true).
    { unfold has_text. apply andb_true_iff. split.
      - destruct s; [discriminate H | reflexivity].
      - destruct (strip s) eqn:E; [|reflexivity].
        apply strip_nil_iff in E. congruence. }
    now rewrite G. }
  split; [intros l; apply content_lines_spec|].
  split; intros H.
  - apply not_acceptable_iff_count. simpl. lia.
  - apply acceptable_iff_count. simpl. lia.
Qed.

Lemma quality_judge_policy_witness :
  is_acceptable (Some (u8 "  ")) = false /\
  is_acceptable (Some five_lines) = false /\
  is_acceptable (Some six_lines) = true.
Proof.
  split; [|split].
  - apply (proj1 (proj2 (quality_judge_policy (u8 "  ")))). reflexivity.
  - apply (proj1 (proj2 (proj2 (proj2 (proj2 (quality_judge_policy five_lines)))))).
    reflexivity.
  - apply (proj2 (proj2 (proj2 (proj2 (proj2 (quality_judge_policy six_lines)))))).
    reflexivity.
Defined.

(** ** The layout-analysis adapter: estimated pages *)

Lemma total_len_app (a b : list str) :
  total_len (a ++ b) = total_len a + total_len b.
Proof.
  induction a as [|x a IH]; simpl; [reflexivity|]. rewrite IH. lia.
Qed.

Lemma paginate_chunks (lines : list str) :
  forall current_page pages,
    total_len current_page < chars_per_page ->
    exists full last,
      paginate lines current_page pages = (pages ++ map estimated_segment full, last) /\
      current_page ++ lines = List.concat full ++ last /\
      Forall full_chunk full /\
      total_len last < chars_per_page.
Proof.
  induction lines as [|line rest IH]; intros cur pages Hcur; cbn [paginate].
  - exists [], cur. simpl. rewrite !app_nil_r. auto.
  - destruct (chars_per_page <=? total_len (cur ++ [line])) eqn:E.
    + apply Nat.leb_le in E.
      destruct (IH [] (pages ++ [estimated_segment (cur ++ [line])]))
        as (full & last & Hp & Hc & Hf & Hl).
      { unfold chars_per_page. simpl. lia. }
      exists ((cur ++ [line]) :: full), last.
      split; [|split; [|split]].
      * etransitivity; [exact Hp|]. cbn [map]. now rewrite <- app_assoc.
      * cbn [List.concat app] in *. rewrite <- !app_assoc. cbn [app].
        now rewrite Hc.
      * constructor; [|exact Hf]. unfold full_chunk.
        rewrite removelast_last. split; [|split]; auto.
        now destruct cur.
      * exact Hl.
    + apply Nat.leb_gt in E.
      destruct (IH (cur ++ [line]) pages E) as (full & last & Hp & Hc & Hf & Hl).
      exists full, last. rewrite <- app_assoc in Hc. auto.
Qed.

Lemma estimated_pages_chunks (text : str) :
  exists full last,
    split NL text = List.concat full ++ last /\
    Forall full_chunk full /\
    total_len last < chars_per_page /\
    estimated_pages text = map estimated_segment (chunks_of full last).
Proof.
  unfold estimated_pages.
  destruct (@paginate_chunks (split NL text) [] [])
    as (full & last & Hp & Hc & Hf & Hl).
  { unfold chars_per_page. simpl. lia. }
  exists full, last. rewrite Hp. simpl in *.
  split; [exact Hc|]. split; [exact Hf|]. split; [exact Hl|].
  unfold chunks_of. destruct last; rewrite map_app; simpl.
  - now rewrite app_nil_r.
  - reflexivity.
Qed.

(** C7. When pdfminer returns a non-empty text, the adapter cuts its lines,
    in order and without loss, into runs that are each closed as soon as
    the accumulated character count reaches 2000, plus a last run made of
    the lines left over (fewer than 2000 characters), if any; each run is
    emitted as a segment that starts with the "estimated" marker
    [=== Page 估计 ===], and the segments are joined by blank lines. *)
Theorem pdfminer_estimated_segments (env : Env) (pdf_path text : str) :
  import_pdfminer env = Ok tt ->
  extract_text env pdf_path = Ok (Some text) ->
  nonempty text = true ->
  exists full last,
    split NL text = List.concat full ++ last /\
    Forall full_chunk full /\
    total_len last < chars_per_page /\
    chars_per_page = 2000 /\
    fst (extract_with_pdfminer env pdf_path)
    = Some (join [NL; NL] (map estimated_segment (chunks_of full last))) /\
    Forall (fun seg => startswith seg estimated_marker = true)
           (map estimated_segment (chunks_of full last)).
Proof.
  intros Hi Ht Hne.
  destruct (estimated_pages_chunks text) as (full & last & Hc & Hf & Hl & Hp).
  exists full, last.
  split; [exact Hc|]. split; [exact Hf|]. split; [exact Hl|].
  split; [reflexivity|]. split.
  - unfold extract_with_pdfminer. rewrite Hi, Ht.
    destruct text as [|c s]; [discriminate|]. simpl. now rewrite Hp.
  - apply Forall_forall. intros seg Hin. apply in_map_iff in Hin.
    destruct Hin as (chunk & <- & _). apply startswith_prefix.
Qed.

Lemma pdfminer_estimated_segments_witness :
  exists full last,
    split NL long_text = List.concat full ++ last /\
    Forall full_chunk full /\
    total_len last < chars_per_page /\
    chars_per_page = 2000 /\
    fst (extract_with_pdfminer
           (sample_env (Ok []) (Ok []) (Ok (Some long_text))) (u8 "doc.pdf"))
    = Some (join [NL; NL] (map estimated_segment (chunks_of full last))) /\
    Forall (fun seg => startswith seg estimated_marker = true)
           (map estimated_segment (chunks_of full last)).
Proof.
  apply (@pdfminer_estimated_segments
           (sample_env (Ok []) (Ok []) (Ok (Some long_text))) (u8 "doc.pdf") long_text);
    reflexivity.
Defined.

(** The two runs of [long_text]: the first closes when its second line
    brings the count to 2100, the rest is the final segment. *)
Example long_text_pages :
  estimated_pages long_text =
  [estimated_segment [repeat 97%N 1200; repeat 98%N 900];
   estimated_segment [u8 "tail"]].
Proof. vm_compute. reflexivity. Qed.

(** ** The page-oriented adapters *)

Lemma segments_length (texts : list py_text) :
  forall i, List.length (segments i texts) = List.length texts.
Proof.
  induction texts as [|t r IH]; intros i; simpl; [reflexivity|]. now rewrite IH.
Qed.

Lemma segments_nth (texts : list py_text) :
  forall i k t, nth_error texts k = Some t ->
    nth_error (segments i texts) k = Some (page_part (i + k) t).
Proof.
  induction texts as [|t0 r IH]; intros i k t H.
  - destruct k; discriminate.
  - destruct k as [|k]; simpl in *.
    + injection H as ->. now rewrite Nat.add_0_r.
    + rewrite (IH (S i) k t H). f_equal. f_equal. lia.
Qed.

Lemma page_loop_inv (pages : list page) :
  forall i total text_parts log parts',
    fst (page_loop pages i total text_parts log) = Ok parts' ->
    exists texts, pages = map (@Ok py_text) texts /\
                  parts' = text_parts ++ segments i texts.
Proof.
  induction pages as [|pg rest IH]; intros i total parts log parts' H.
  - simpl in H. injection H as <-. exists []. now rewrite app_nil_r.
  - destruct pg as [t|e]; cbn [page_loop] in H; [|discriminate].
    destruct (IH _ _ _ _ _ H) as (texts & -> & ->).
    exists (t :: texts). simpl. now rewrite <- app_assoc.
Qed.

Lemma page_loop_ok (texts : list py_text) :
  forall i total text_parts log,
    fst (page_loop (map (@Ok py_text) texts) i total text_parts log)
    = Ok (text_parts ++ segments i texts).
Proof.
  induction texts as [|t r IH]; intros i total parts log.
  - simpl. now rewrite app_nil_r.
  - cbn [map page_loop]. rewrite IH. simpl. now rewrite <- app_assoc.
Qed.

Lemma page_part_spec (i : nat) (t : py_text) :
  startswith (page_part i t) (page_marker i) = true /\
  (truthy t = false ->
     page_part i t = page_marker i ++ u8 " [" ++ no_text_tag ++ u8 "]" ++ [NL]) /\
  (forall s, t = Some s -> nonempty s = true ->
     page_part i t = page_marker i ++ [NL] ++ s ++ [NL]).
Proof.
  split; [|split].
  - unfold page_part. destruct t as [[|c s]|]; apply startswith_prefix.
  - destruct t as [[|c s]|]; simpl; intros H; try reflexivity; discriminate.
  - intros s -> H. destruct s; [discriminate | reflexivity].
Qed.

Lemma extract_paged_keeps_every_page (b : backend) (import_lib : result unit)
    (open_pages : str -> result (list page)) (pdf_path : str) (texts : list py_text) :
  import_lib = Ok tt ->
  open_pages pdf_path = Ok (map (@Ok py_text) texts) ->
  keeps_every_page texts (fst (extract_paged b import_lib open_pages pdf_path)).
Proof.
  intros Hi Ho. unfold extract_paged. rewrite Hi, Ho.
  pose proof (page_loop_ok texts 1 (List.length (map (@Ok py_text) texts)) []
                [Log INFO (MsgUsing b pdf_path)]) as H.
  destruct (page_loop _ _ _ _ _) as [r log']. simpl in H. subst r.
  exists (segments 1 texts). split; [reflexivity|].
  split; [apply segments_length|].
  intros k t Hk. exists (page_part (S k) t).
  split; [exact (segments_nth texts 1 k Hk)|]. apply page_part_spec.
Qed.

(** C6. When a page-oriented backend (pdfplumber, pypdf) reads an N-page
    document and no page raises, the text it returns is the concatenation of
    exactly N segments, the k-th carrying the marker of page k, in ascending
    order; a page whose text is [None] or empty still has its segment, marked
    with the "no text" tag. *)
Theorem paged_backends_keep_every_page (env : Env) (pdf_path : str)
    (texts : list py_text) :
  (import_pdfplumber env = Ok tt ->
   pdfplumber_open env pdf_path = Ok (map (@Ok py_text) texts) ->
   keeps_every_page texts (fst (extract_with_pdfplumber env pdf_path))) /\
  (import_pypdf env = Ok tt ->
   PdfReader env pdf_path = Ok (map (@Ok py_text) texts) ->
   keeps_every_page texts (fst (extract_with_pypdf env pdf_path))).
Proof.
  split; intros Hi Ho; now apply extract_paged_keeps_every_page.
Qed.

Lemma paged_backends_keep_every_page_witness :
  keeps_every_page three_pages
    (fst (extract_with_pdfplumber
            (sample_env (Ok (map (@Ok py_text) three_pages)) (Ok []) (Ok None))
            (u8 "doc.pdf"))) /\
  keeps_every_page three_pages
    (fst (extract_with_pypdf
            (sample_env (Ok []) (Ok (map (@Ok py_text) three_pages)) (Ok None))
            (u8 "doc.pdf"))).
Proof.
  split.
  - apply (proj1 (paged_backends_keep_every_page
                    (sample_env (Ok (map (@Ok py_text) three_pages)) (Ok []) (Ok None))
                    (u8 "doc.pdf") three_pages)); reflexivity.
  - apply (proj2 (paged_backends_keep_every_page
                    (sample_env (Ok []) (Ok (map (@Ok py_text) three_pages)) (Ok None))
                    (u8 "doc.pdf") three_pages)); reflexivity.
Defined.

Example three_pages_text :
  fst (extract_with_pypdf
         (sample_env (Ok []) (Ok (map (@Ok py_text) three_pages)) (Ok None))
         (u8 "doc.pdf"))
  = Some (u8 "=== Page 1 ===
first
=== Page 2 === [无文本]
=== Page 3 ===
third
").
Proof. vm_compute. reflexivity. Qed.

(** ** What an adapter returns and logs *)

Lemma calls_app (a b : trace) : calls (a ++ b) = calls a ++ calls b.
Proof.
  induction a as [|e a IH]; simpl; [reflexivity|].
  destruct e; simpl; now rewrite IH.
Qed.

Lemma reasons_app (a b : trace) : reasons (a ++ b) = reasons a ++ reasons b.
Proof. apply filter_app. Qed.

Lemma has_text_head (c : char) (r : str) :
  isspace c = false -> has_text (Some (c :: r)) = true.
Proof.
  intros H. simpl. apply nonempty_strip_iff. exists c. simpl. auto.
Qed.

Lemma page_part_head (i : nat) (t : py_text) :
  exists r, page_part i t = 61%N :: r.
Proof.
  unfold page_part, page_marker. destruct t as [[|c s]|]; eexists; reflexivity.
Qed.

Lemma page_loop_log (pages : list page) :
  forall i total text_parts log,
    exists extra,
      snd (page_loop pages i total text_parts log) = log ++ extra /\
      calls extra = [] /\ reasons extra = [].
Proof.
  induction pages as [|pg rest IH]; intros i total parts log.
  - exists []. simpl. now rewrite app_nil_r.
  - destruct pg as [t|e]; cbn [page_loop].
    + destruct ((i mod 10 =? 0) || (i =? total)).
      * destruct (IH (S i) total (parts ++ [page_part i t])
                    (log ++ [Log INFO (MsgProgress i total)]))
          as (extra & -> & Hc & Hr).
        exists (Log INFO (MsgProgress i total) :: extra).
        rewrite <- app_assoc. simpl. unfold reasons in *. simpl. auto.
      * apply IH.
    + exists []. simpl. now rewrite app_nil_r.
Qed.

(** An adapter never returns a non-empty blank text: its result is [None],
    the empty string (a document without pages), or a text that opens with
    a page marker. *)
Lemma extract_paged_shape (b : backend) (import_lib : result unit)
    (open_pages : str -> result (list page)) (pdf_path : str) :
  let r := fst (extract_paged b import_lib open_pages pdf_path) in
  r = None \/ r = Some [] \/ has_text r = true.
Proof.
  unfold extract_paged.
  destruct import_lib as [u|e]; [|left; now destruct e].
  destruct (open_pages pdf_path) as [pages|e]; [|left; now destruct e].
  pose proof (@page_loop_inv pages 1 (List.length pages) []
                [Log INFO (MsgUsing b pdf_path)]) as H.
  destruct (page_loop _ _ _ _ _) as [[parts|e] log']; [|left; now destruct e].
  destruct (H parts eq_refl) as (texts & _ & ->).
  right. simpl. destruct texts as [|t texts]; [now left|right].
  cbn [segments List.concat].
  destruct (page_part_head 1 t) as (r & ->). now apply has_text_head.
Qed.

Lemma estimated_segment_head (chunk : list str) :
  exists r, estimated_segment chunk = 61%N :: r.
Proof. unfold estimated_segment, estimated_marker. eexists. reflexivity. Qed.

Lemma estimated_text_has_text (text : str) :
  has_text (Some (join [NL; NL] (estimated_pages text))) = true.
Proof.
  destruct (estimated_pages_chunks text) as (full & last & Hc & _ & _ & ->).
  assert (G : exists c0 rest, chunks_of full last = c0 :: rest).
  { unfold chunks_of. destruct full as [|c0 full]; [|simpl; eauto].
    destruct last; simpl in *; [|eauto].
    now apply split_not_nil in Hc. }
  destruct G as (c0 & rest & ->). cbn [map].
  destruct (estimated_segment_head c0) as (r & ->).
  destruct (map estimated_segment rest); now apply has_text_head.
Qed.

Lemma extract_with_pdfminer_shape (env : Env) (pdf_path : str) :
  let r := fst (extract_with_pdfminer env pdf_path) in
  r = None \/ has_text r = true.
Proof.
  unfold extract_with_pdfminer.
  destruct (import_pdfminer env) as [u|e]; [|left; now destruct e].
  destruct (extract_text env pdf_path) as [[[|c s]|]|e];
    try (left; reflexivity); [|left; now destruct e].
  right. cbn [fst]. apply estimated_text_has_text.
Qed.

Lemma backend_result_shape (env : Env) (pdf_path : str) (b : backend) :
  backend_result env pdf_path b = None \/
  backend_result env pdf_path b = Some [] \/
  has_text (backend_result env pdf_path b) = true.
Proof.
  unfold backend_result. destruct b; cbn [run_backend].
  - apply extract_paged_shape.
  - apply extract_paged_shape.
  - destruct (extract_with_pdfminer_shape env pdf_path); auto.
Qed.

Lemma on_error_log (b : backend) (e : exn) (log : trace) :
  calls log = [] -> reasons log = [] ->
  fst (on_error b e log) = None /\
  calls (snd (on_error b e log)) = [] /\
  List.length (reasons (snd (on_error b e log))) = 1.
Proof.
  intros Hc Hr.
  destruct e; simpl; rewrite calls_app, reasons_app, Hc, Hr; auto.
Qed.

Lemma extract_paged_log (b : backend) (import_lib : result unit)
    (open_pages : str -> result (list page)) (pdf_path : str) :
  let '(r, log) := extract_paged b import_lib open_pages pdf_path in
  calls log = [] /\ List.length (reasons log) = own_reasons r.
Proof.
  unfold extract_paged.
  destruct import_lib as [u|e].
  2:{ destruct (@on_error_log b e [] eq_refl eq_refl) as (H1 & H2 & H3).
      destruct (on_error b e []) as [r log]. simpl in *. now subst r. }
  destruct (open_pages pdf_path) as [pages|e].
  2:{ destruct (@on_error_log b e [Log INFO (MsgUsing b pdf_path)] eq_refl eq_refl)
        as (H1 & H2 & H3).
      destruct (on_error b e _) as [r log]. simpl in *. now subst r. }
  destruct (@page_loop_log pages 1 (List.length pages) []
              [Log INFO (MsgUsing b pdf_path)]) as (extra & H & Hc & Hr).
  destruct (page_loop _ _ _ _ _) as [[parts|e] log']; simpl in H; subst log'.
  - cbn beta iota zeta.
    change (Log INFO (MsgUsing b pdf_path) :: extra)
      with ([Log INFO (MsgUsing b pdf_path)] ++ extra).
    rewrite !calls_app, !reasons_app, Hc, Hr.
    destruct (negb _); simpl; auto.
  - assert (Hc' : calls ([Log INFO (MsgUsing b pdf_path)] ++ extra) = [])
      by now rewrite calls_app, Hc.
    assert (Hr' : reasons ([Log INFO (MsgUsing b pdf_path)] ++ extra) = [])
      by now rewrite reasons_app, Hr.
    destruct (@on_error_log b e _ Hc' Hr') as (H1 & H2 & H3).
    destruct (on_error b e _) as [r log]. simpl in *. now subst r.
Qed.

Lemma extract_with_pdfminer_log (env : Env) (pdf_path : str) :
  let '(r, log) := extract_with_pdfminer env pdf_path in
  calls log = [] /\ List.length (reasons log) = own_reasons r.
Proof.
  unfold extract_with_pdfminer.
  destruct (import_pdfminer env) as [u|e].
  2:{ destruct (@on_error_log Pdfminer e [] eq_refl eq_refl) as (H1 & H2 & H3).
      destruct (on_error Pdfminer e []) as [r log]. simpl in *. now subst r. }
  destruct (extract_text env pdf_path) as [[[|c s]|]|e]; simpl; auto.
  destruct (@on_error_log Pdfminer e [Log INFO (MsgUsing Pdfminer pdf_path)]
              eq_refl eq_refl) as (H1 & H2 & H3).
  destruct (on_error Pdfminer e _) as [r log]. simpl in *. now subst r.
Qed.

Lemma run_backend_log (env : Env) (pdf_path : str) (b : backend) :
  calls (snd (run_backend env pdf_path b)) = [] /\
  List.length (reasons (snd (run_backend env pdf_path b)))
  = own_reasons (backend_result env pdf_path b).
Proof.
  unfold backend_result. destruct b; cbn [run_backend].
  - pose proof (extract_paged_log Pdfplumber (import_pdfplumber env)
                  (pdfplumber_open env) pdf_path) as H.
    unfold extract_with_pdfplumber. now destruct (extract_paged _ _ _ _).
  - pose proof (extract_paged_log Pypdf (import_pypdf env) (PdfReader env) pdf_path) as H.
    unfold extract_with_pypdf. now destruct (extract_paged _ _ _ _).
  - pose proof (extract_with_pdfminer_log env pdf_path) as H.
    now destruct (extract_with_pdfminer _ _).
Qed.

(** ** The fallback loop *)

Lemma dispatch_backend (env : Env) (pdf_path : str) (b : backend) (t0 : py_text) :
  dispatch env pdf_path (backend_name b) t0
  = (backend_result env pdf_path b, Call b :: snd (run_backend env pdf_path b)).
Proof.
  assert (E1 : str_eqb (u8 "pdfplumber") (u8 "pdfplumber") = true) by reflexivity.
  assert (E2 : str_eqb (u8 "pypdf") (u8 "pdfplumber") = false) by reflexivity.
  assert (E3 : str_eqb (u8 "pypdf") (u8 "pypdf") = true) by reflexivity.
  assert (E4 : str_eqb (u8 "pdfminer") (u8 "pdfplumber") = false) by reflexivity.
  assert (E5 : str_eqb (u8 "pdfminer") (u8 "pypdf") = false) by reflexivity.
  assert (E6 : str_eqb (u8 "pdfminer") (u8 "pdfminer") = true) by reflexivity.
  unfold dispatch, backend_result.
  destruct b; cbn [backend_name run_backend].
  - rewrite E1. now destruct (extract_with_pdfplumber env pdf_path).
  - rewrite E2, E3. now destruct (extract_with_pypdf env pdf_path).
  - rewrite E4, E5, E6. now destruct (extract_with_pdfminer env pdf_path).
Qed.

(** One iteration on a known backend: its result is returned at once when
    the judge accepts it; otherwise the loop goes on, with [None] after a
    "too little content" warning, or with the blank result itself. *)
Lemma try_methods_step (env : Env) (pdf_path : str) (b : backend)
    (rest : list str) (t0 : py_text) :
  try_methods env pdf_path (backend_name b :: rest) t0 =
  let r := backend_result env pdf_path b in
  let log := Call b :: snd (run_backend env pdf_path b) in
  if is_acceptable r
  then (r, log ++ [Log INFO (MsgSuccess (backend_name b))])
  else if has_text r
  then (fst (try_methods env pdf_path rest None),
        log ++ Log WARNING (MsgTooLittle (backend_name b))
            :: snd (try_methods env pdf_path rest None))
  else (fst (try_methods env pdf_path rest r),
        log ++ snd (try_methods env pdf_path rest r)).
Proof.
  cbn [try_methods]. rewrite dispatch_backend. cbv zeta.
  destruct (backend_result env pdf_path b) as [s|]; unfold is_acceptable.
  - destruct (has_text (Some s)), (enough_content s); cbn [andb];
      try reflexivity;
      now destruct (try_methods env pdf_path rest _).
  - cbn [has_text]. now destruct (try_methods env pdf_path rest None).
Qed.

Lemma try_methods_first_accepted (env : Env) (pdf_path : str)
    (pre : list backend) (b : backend) (post : list backend) :
  (forall b', In b' pre -> is_acceptable (backend_result env pdf_path b') = false) ->
  is_acceptable (backend_result env pdf_path b) = true ->
  forall t0,
    fst (try_methods env pdf_path (map backend_name (pre ++ b :: post)) t0)
    = backend_result env pdf_path b /\
    calls (snd (try_methods env pdf_path (map backend_name (pre ++ b :: post)) t0))
    = pre ++ [b].
Proof.
  intros Hpre Hb.
  induction pre as [|b' pre IH]; intros t0; cbn [app map];
    rewrite try_methods_step; cbv zeta.
  - rewrite Hb. cbn [fst snd app calls]. rewrite calls_app.
    now rewrite (proj1 (run_backend_log env pdf_path b)).
  - rewrite (Hpre b' (or_introl eq_refl)).
    assert (IH' := IH (fun x Hx => Hpre x (or_intror Hx))).
    destruct (has_text (backend_result env pdf_path b')); cbn [fst snd app calls];
      rewrite calls_app, (proj1 (run_backend_log env pdf_path b')); cbn [app calls];
      (split; [apply IH' | f_equal; apply IH']).
Qed.

Lemma try_methods_all_rejected (env : Env) (pdf_path : str) (bs : list backend) :
  (forall b, In b bs -> is_acceptable (backend_result env pdf_path b) = false) ->
  forall t0,
    try_methods env pdf_path (map backend_name bs) t0
    = (carried_text env pdf_path bs t0, flat_map (attempt_log env pdf_path) bs).
Proof.
  induction bs as [|b bs IH]; intros H t0; [reflexivity|].
  cbn [map]. rewrite try_methods_step. cbv zeta.
  rewrite (H b (or_introl eq_refl)).
  assert (IH' := IH (fun x Hx => H x (or_intror Hx))).
  cbn [carried_text flat_map]. cbv zeta.
  destruct (has_text (backend_result env pdf_path b)) eqn:E;
    rewrite IH'; cbn [fst snd]; f_equal;
    unfold attempt_log; rewrite E; cbn [app]; f_equal;
    rewrite <- ?app_assoc, ?app_nil_r; reflexivity.
Qed.

Lemma calls_attempts (env : Env) (pdf_path : str) (bs : list backend) :
  calls (flat_map (attempt_log env pdf_path) bs) = bs.
Proof.
  induction bs as [|b bs IH]; [reflexivity|].
  cbn [flat_map]. unfold attempt_log at 1. cbn [app calls].
  rewrite !calls_app, (proj1 (run_backend_log env pdf_path b)), IH.
  now destruct (has_text _).
Qed.

(** After rejected attempts the variable holds [None] or the empty string,
    and [None] when no attempted backend returned the empty string. *)
Lemma carried_text_falsy (env : Env) (pdf_path : str) (bs : list backend) :
  forall t0,
    (t0 = None \/ t0 = Some []) ->
    (carried_text env pdf_path bs t0 = None \/
     carried_text env pdf_path bs t0 = Some []) /\
    ((forall b, In b bs -> backend_result env pdf_path b <> Some []) ->
     t0 = None -> carried_text env pdf_path bs t0 = None).
Proof.
  induction bs as [|b bs IH]; intros t0 H0; cbn [carried_text].
  - auto.
  - cbv zeta.
    destruct (backend_result_shape env pdf_path b) as [E | [E | E]].
    + rewrite E. cbn [has_text].
      destruct (IH None (or_introl eq_refl)) as [H1 H2]. split; [exact H1|].
      intros Hne _. apply H2; [|reflexivity]. intros x Hx. apply Hne. now right.
    + rewrite E. cbn [has_text nonempty andb].
      destruct (IH (Some []) (or_intror eq_refl)) as [H1 _]. split; [exact H1|].
      intros Hne _. exfalso. apply (Hne b); [now left | exact E].
    + rewrite E.
      destruct (IH None (or_introl eq_refl)) as [H1 H2]. split; [exact H1|].
      intros Hne _. apply H2; [|reflexivity]. intros x Hx. apply Hne. now right.
Qed.

Lemma reasons_until_call_app (log rest : trace) :
  calls log = [] ->
  reasons_until_call (log ++ rest) = List.length (reasons log) + reasons_until_call rest.
Proof.
  induction log as [|e log IH]; intros H; [reflexivity|].
  destruct e as [b|lvl m]; [discriminate|].
  cbn [app reasons_until_call]. rewrite (IH H).
  unfold reasons. cbn [filter]. now destruct (is_reason (Log lvl m)).
Qed.

Lemma reasons_per_call_app (log rest : trace) :
  calls log = [] -> reasons_per_call (log ++ rest) = reasons_per_call rest.
Proof.
  induction log as [|e log IH]; intros H; [reflexivity|].
  destruct e as [b|lvl m]; [discriminate|]. exact (IH H).
Qed.

Lemma reasons_per_call_quiet_tail (tr tail : trace) :
  calls tail = [] -> reasons tail = [] ->
  reasons_until_call (tr ++ tail) = reasons_until_call tr /\
  reasons_per_call (tr ++ tail) = reasons_per_call tr.
Proof.
  intros Hc Hr. induction tr as [|e tr [IH1 IH2]].
  - cbn [app]. rewrite <- (app_nil_r tail).
    rewrite reasons_until_call_app, reasons_per_call_app, Hr by exact Hc.
    now split.
  - destruct e as [b|lvl m]; cbn [app reasons_until_call reasons_per_call].
    + now rewrite IH1, IH2.
    + now rewrite IH1, IH2.
Qed.

(** Reasons logged for one rejected attempt: the adapter's own when it
    returned [None], the orchestrator's when it returned text. *)
Lemma attempt_reasons (env : Env) (pdf_path : str) (b : backend) (rest : trace) :
  is_acceptable (backend_result env pdf_path b) = false ->
  backend_result env pdf_path b <> Some [] ->
  reasons_until_call rest = 0 ->
  reasons_per_call (attempt_log env pdf_path b ++ rest) = 1 :: reasons_per_call rest /\
  List.length (reasons (attempt_log env pdf_path b)) = 1.
Proof.
  intros Hrej Hne Hrest.
  destruct (run_backend_log env pdf_path b) as [Hc Hr].
  unfold attempt_log. cbn [app reasons_per_call].
  rewrite <- !app_assoc, reasons_until_call_app, reasons_per_call_app by exact Hc.
  unfold reasons at 2. cbn [filter is_reason]. fold (reasons (snd (run_backend env pdf_path b) ++
    (if has_text (backend_result env pdf_path b)
     then [Log WARNING (MsgTooLittle (backend_name b))] else []))).
  rewrite reasons_app, length_app, Hr.
  destruct (backend_result_shape env pdf_path b) as [E | [E | E]].
  - rewrite E. cbn. rewrite Hrest. now split.
  - contradiction.
  - rewrite E. destruct (backend_result env pdf_path b) as [s|]; [|discriminate].
    cbn. rewrite Hrest. now split.
Qed.

Lemma attempts_reasons (env : Env) (pdf_path : str) (bs : list backend) :
  (forall b, In b bs -> is_acceptable (backend_result env pdf_path b) = false) ->
  (forall b, In b bs -> backend_result env pdf_path b <> Some []) ->
  reasons_until_call (flat_map (attempt_log env pdf_path) bs) = 0 /\
  reasons_per_call (flat_map (attempt_log env pdf_path) bs) = repeat 1 (List.length bs) /\
  List.length (reasons (flat_map (attempt_log env pdf_path) bs)) = List.length bs.
Proof.
  induction bs as [|b bs IH]; intros Hrej Hne; [now repeat split|].
  destruct (IH (fun x Hx => Hrej x (or_intror Hx)) (fun x Hx => Hne x (or_intror Hx)))
    as (I1 & I2 & I3).
  destruct (@attempt_reasons env pdf_path b (flat_map (attempt_log env pdf_path) bs)
              (Hrej b (or_introl eq_refl)) (Hne b (or_introl eq_refl)) I1) as [A1 A2].
  cbn [flat_map List.length repeat]. split; [reflexivity|]. split.
  - now rewrite A1, I2.
  - now rewrite reasons_app, length_app, A2, I3.
Qed.

(** ** The orchestrator *)

Lemma str_eqb_eq (a b : str) : str_eqb a b = true <-> a = b.
Proof.
  revert b. induction a as [|x a IH]; intros [|y b]; simpl;
    try (split; [discriminate | congruence]); [tauto|].
  rewrite andb_true_iff, N.eqb_eq, IH. split.
  - intros [-> ->]. reflexivity.
  - intros H. injection H as -> ->. auto.
Qed.

Section Orchestrator.

Variable lower : str -> str.
Variable env : Env.
Variable pdf_path : str.

(** Past the validator, [extract_pdf_text] is the loop followed by the
    closing log record. *)
Lemma extract_pdf_text_valid (method : str) :
  fst (check_pdf_file lower env pdf_path) = true ->
  extract_pdf_text lower env pdf_path method =
  let v := fst (try_methods env pdf_path (methods_of method) None) in
  let log1 := snd (try_methods env pdf_path (methods_of method) None) in
  let log0 := [Log INFO (MsgStart pdf_path (getsize env pdf_path))] in
  match v with
  | Some (c :: s) =>
      (v, log0 ++ log1 ++
          [Log INFO (MsgDone
             (List.length (filter (fun line => nonempty (strip line)) (split NL (c :: s))))
             (List.length (c :: s)))])
  | _ => (v, log0 ++ log1 ++ [Log ERROR MsgAllFailed])
  end.
Proof.
  intros H. unfold extract_pdf_text.
  destruct (check_pdf_file lower env pdf_path) as [is_valid msg].
  simpl in H. subst is_valid. cbn [negb]. cbv zeta. fold (methods_of method).
  now destruct (try_methods env pdf_path (methods_of method) None) as [[[|c s]|] log1].
Qed.

(** The loop over the method list is the loop over the selected backends:
    a name that is none of the three leaves [extracted_text] at [None] and
    the trace empty. *)
Lemma try_methods_selected (method : str) :
  try_methods env pdf_path (methods_of method) None
  = try_methods env pdf_path (map backend_name (selected method)) None.
Proof.
  unfold methods_of, selected.
  destruct (str_eqb method (u8 "auto")); [reflexivity|].
  destruct (str_eqb method (u8 "pdfplumber")) eqn:E1;
    [apply str_eqb_eq in E1; now subst|].
  destruct (str_eqb method (u8 "pypdf")) eqn:E2;
    [apply str_eqb_eq in E2; now subst|].
  destruct (str_eqb method (u8 "pdfminer")) eqn:E3;
    [apply str_eqb_eq in E3; now subst|].
  cbn [try_methods map]. unfold dispatch. now rewrite E1, E2, E3.
Qed.

Lemma calls_framed (log0 log1 tail : trace) :
  calls log0 = [] -> calls tail = [] -> calls (log0 ++ log1 ++ tail) = calls log1.
Proof.
  intros H0 H1. now rewrite !calls_app, H0, H1, app_nil_r.
Qed.

Lemma accepted_is_text (t : py_text) :
  is_acceptable t = true -> exists c s, t = Some (c :: s).
Proof.
  destruct t as [[|c s]|]; try discriminate. eauto.
Qed.

Lemma extract_pdf_text_accepts (method : str) (pre : list backend) (b : backend)
    (post : list backend) :
  fst (check_pdf_file lower env pdf_path) = true ->
  selected method = pre ++ b :: post ->
  (forall b', In b' pre -> is_acceptable (backend_result env pdf_path b') = false) ->
  is_acceptable (backend_result env pdf_path b) = true ->
  fst (extract_pdf_text lower env pdf_path method) = backend_result env pdf_path b /\
  calls (snd (extract_pdf_text lower env pdf_path method)) = pre ++ [b].
Proof.
  intros Hv Hsel Hpre Hb.
  rewrite (extract_pdf_text_valid method Hv), try_methods_selected, Hsel. cbv zeta.
  destruct (try_methods_first_accepted env pdf_path pre b post Hpre Hb None) as [E1 E2].
  rewrite E1. destruct (accepted_is_text _ Hb) as (c & s & E). rewrite E.
  cbn [fst snd]. split; [reflexivity|].
  now rewrite calls_framed.
Qed.

Lemma extract_pdf_text_rejects (method : str) :
  fst (check_pdf_file lower env pdf_path) = true ->
  (forall b, In b (selected method) ->
     is_acceptable (backend_result env pdf_path b) = false) ->
  extract_pdf_text lower env pdf_path method
  = (carried_text env pdf_path (selected method) None,
     [Log INFO (MsgStart pdf_path (getsize env pdf_path))]
     ++ flat_map (attempt_log env pdf_path) (selected method)
     ++ [Log ERROR MsgAllFailed]).
Proof.
  intros Hv Hrej.
  rewrite (extract_pdf_text_valid method Hv), try_methods_selected.
  rewrite (try_methods_all_rejected env pdf_path (selected method) Hrej None).
  cbv zeta. cbn [fst snd].
  assert (F : carried_text env pdf_path (selected method) None = None \/
              carried_text env pdf_path (selected method) None = Some []).
  { apply carried_text_falsy. now left. }
  destruct F as [F | F]; rewrite F; reflexivity.
Qed.

End Orchestrator.

Lemma NoDup_app_disjoint (A : Type) (l1 l2 : list A) (a : A) :
  NoDup (l1 ++ l2) -> In a l1 -> ~ In a l2.
Proof.
  induction l1 as [|x l1 IH]; intros Hnd Hin; [destruct Hin|].
  simpl in Hnd. apply NoDup_cons_iff in Hnd. destruct Hnd as [Hx Hnd].
  destruct Hin as [-> | Hin].
  - intros H. apply Hx. apply in_or_app. now right.
  - now apply IH.
Qed.

Lemma priority_NoDup : NoDup priority.
Proof.
  unfold priority. repeat constructor; simpl; intuition discriminate.
Qed.

(** C1. On a document that passes the validator, if some backend of the
    order pdfplumber, pypdf, pdfminer returns a text with at least 6
    content lines, then ['auto'] returns the text of the first such backend,
    and the backends invoked are exactly those up to and including it: none
    of the later ones is attempted. *)
Theorem auto_returns_first_good_backend (lower : str -> str) (env : Env)
    (pdf_path : str) (pre : list backend) (b : backend) (post : list backend) :
  fst (check_pdf_file lower env pdf_path) = true ->
  priority = pre ++ b :: post ->
  (forall b', In b' pre -> content_count (backend_result env pdf_path b') < 6) ->
  6 <= content_count (backend_result env pdf_path b) ->
  fst (extract_pdf_text lower env pdf_path (u8 "auto")) = backend_result env pdf_path b /\
  calls (snd (extract_pdf_text lower env pdf_path (u8 "auto"))) = pre ++ [b] /\
  (forall b', In b' post ->
     ~ In b' (calls (snd (extract_pdf_text lower env pdf_path (u8 "auto"))))).
Proof.
  intros Hv Hprio Hpre Hb.
  destruct (@extract_pdf_text_accepts lower env pdf_path (u8 "auto") pre b post)
    as [E1 E2]; auto.
  - intros b' Hin. apply not_acceptable_iff_count. auto.
  - now apply acceptable_iff_count.
  - split; [exact E1|]. split; [exact E2|].
    intros b' Hpost Hin. rewrite E2 in Hin.
    pose proof priority_NoDup as Hnd. rewrite Hprio in Hnd.
    change (pre ++ b :: post) with (pre ++ [b] ++ post) in Hnd.
    rewrite app_assoc in Hnd.
    exact (NoDup_app_disjoint _ _ b' Hnd Hin Hpost).
Qed.

Lemma auto_returns_first_good_backend_witness :
  fst (extract_pdf_text ascii_lower scanned_then_text (u8 "Doc.PDF") (u8 "auto"))
  = backend_result scanned_then_text (u8 "Doc.PDF") Pypdf /\
  calls (snd (extract_pdf_text ascii_lower scanned_then_text (u8 "Doc.PDF") (u8 "auto")))
  = [Pdfplumber] ++ [Pypdf] /\
  (forall b', In b' [Pdfminer] ->
     ~ In b' (calls (snd (extract_pdf_text ascii_lower scanned_then_text
                            (u8 "Doc.PDF") (u8 "auto"))))).
Proof.
  apply (@auto_returns_first_good_backend ascii_lower scanned_then_text (u8 "Doc.PDF")
           [Pdfplumber] Pypdf [Pdfminer]).
  - reflexivity.
  - reflexivity.
  - intros b' [<- | []]. vm_compute. lia.
  - vm_compute. lia.
Defined.

Example scanned_then_text_result :
  fst (extract_pdf_text ascii_lower scanned_then_text (u8 "Doc.PDF") (u8 "auto"))
  = Some (u8 "=== Page 1 ===
one
two
=== Page 2 ===
three
four
=== Page 3 ===
five
six
").
Proof. vm_compute. reflexivity. Qed.

(** C3, as the code has it.  On a document that passes the validator, when
    every backend the selector designates is unavailable, fails, or returns
    a text the judge rejects, [extract_pdf_text] returns a falsy value
    ([None] or the empty string) after invoking each of those backends once,
    in order, and logs the closing "all methods failed" error.  The reasons
    are not part of the value: they are log records.  When, moreover, no
    backend returned the empty string, the value is [None] and every backend
    call is followed by exactly one reason record (not installed, extraction
    failed, no text, or too little content) before the next call. *)
Theorem all_rejected_fails_with_logged_reasons (lower : str -> str) (env : Env)
    (pdf_path method : str) :
  fst (check_pdf_file lower env pdf_path) = true ->
  (forall b, In b (selected method) ->
     is_acceptable (backend_result env pdf_path b) = false) ->
  truthy (fst (extract_pdf_text lower env pdf_path method)) = false /\
  calls (snd (extract_pdf_text lower env pdf_path method)) = selected method /\
  In (Log ERROR MsgAllFailed) (snd (extract_pdf_text lower env pdf_path method)) /\
  ((forall b, In b (selected method) -> backend_result env pdf_path b <> Some []) ->
   fst (extract_pdf_text lower env pdf_path method) = None /\
   reasons_per_call (snd (extract_pdf_text lower env pdf_path method))
   = repeat 1 (List.length (selected method)) /\
   List.length (reasons (snd (extract_pdf_text lower env pdf_path method)))
   = List.length (selected method)).
Proof.
  intros Hv Hrej. rewrite (@extract_pdf_text_rejects lower env pdf_path method Hv Hrej). cbn [fst snd].
  assert (F : carried_text env pdf_path (selected method) None = None \/
              carried_text env pdf_path (selected method) None = Some []).
  { apply carried_text_falsy. now left. }
  split; [destruct F as [F | F]; rewrite F; reflexivity|].
  split; [rewrite calls_framed by reflexivity; apply calls_attempts|].
  split; [apply in_or_app; right; apply in_or_app; right; now left|].
  intros Hne.
  destruct (attempts_reasons env pdf_path (selected method) Hrej Hne) as (_ & R2 & R3).
  split; [apply carried_text_falsy; auto|].
  split.
  - rewrite reasons_per_call_app by reflexivity.
    rewrite (proj2 (@reasons_per_call_quiet_tail
                      (flat_map (attempt_log env pdf_path) (selected method))
                      [Log ERROR MsgAllFailed] eq_refl eq_refl)).
    exact R2.
  - rewrite !reasons_app, !length_app, R3. cbn. lia.
Qed.

Lemma all_rejected_fails_with_logged_reasons_witness :
  truthy (fst (extract_pdf_text ascii_lower nothing_installed (u8 "a.pdf") (u8 "auto")))
  = false /\
  calls (snd (extract_pdf_text ascii_lower nothing_installed (u8 "a.pdf") (u8 "auto")))
  = selected (u8 "auto") /\
  In (Log ERROR MsgAllFailed)
     (snd (extract_pdf_text ascii_lower nothing_installed (u8 "a.pdf") (u8 "auto"))) /\
  ((forall b, In b (selected (u8 "auto")) ->
      backend_result nothing_installed (u8 "a.pdf") b <> Some []) ->
   fst (extract_pdf_text ascii_lower nothing_installed (u8 "a.pdf") (u8 "auto")) = None /\
   reasons_per_call
     (snd (extract_pdf_text ascii_lower nothing_installed (u8 "a.pdf") (u8 "auto")))
   = repeat 1 (List.length (selected (u8 "auto"))) /\
   List.length
     (reasons (snd (extract_pdf_text ascii_lower nothing_installed (u8 "a.pdf") (u8 "auto"))))
   = List.length (selected (u8 "auto"))).
Proof.
  apply (@all_rejected_fails_with_logged_reasons ascii_lower nothing_installed
           (u8 "a.pdf") (u8 "auto")).
  - reflexivity.
  - intros b _. destruct b; reflexivity.
Defined.

(** C3 as stated does not hold.  The failure value is the same [None]
    after three failed attempts and after one, so no reading of it gives one
    reason per attempted backend; and in the log a backend that returned the
    empty string leaves no reason: on a document without pages three
    backends are attempted and one reason is recorded. *)
Lemma failure_value_carries_no_reasons :
  (~ exists carried, failure_carries_reasons ascii_lower carried) /\
  calls (snd (extract_pdf_text ascii_lower no_pages (u8 "a.pdf") (u8 "auto")))
  = [Pdfplumber; Pypdf; Pdfminer] /\
  reasons (snd (extract_pdf_text ascii_lower no_pages (u8 "a.pdf") (u8 "auto")))
  = [Log WARNING MsgMinerNoText].
Proof.
  split; [|split; reflexivity].
  intros [carried H].
  pose proof (H nothing_installed (u8 "a.pdf") (u8 "auto") eq_refl eq_refl) as H3.
  pose proof (H nothing_installed (u8 "a.pdf") (u8 "pypdf") eq_refl eq_refl) as H1.
  change (List.length (carried None) = 3) in H3.
  change (List.length (carried None) = 1) in H1.
  congruence.
Qed.

(** C5, as the code has it.  With one of the three backend names as method,
    on a document that passes the validator, that backend and no other is
    invoked, whatever the others would return.  Its text is returned when
    the judge accepts it; otherwise the value is falsy, and when the backend
    was unavailable, failed, or returned a non-empty rejected text, the value
    is [None] and the log holds exactly one reason record. *)
Theorem single_method_attempts_only_that_backend (lower : str -> str) (env : Env)
    (pdf_path : str) (b : backend) :
  fst (check_pdf_file lower env pdf_path) = true ->
  calls (snd (extract_pdf_text lower env pdf_path (backend_name b))) = [b] /\
  (is_acceptable (backend_result env pdf_path b) = true ->
   fst (extract_pdf_text lower env pdf_path (backend_name b))
   = backend_result env pdf_path b) /\
  (is_acceptable (backend_result env pdf_path b) = false ->
   truthy (fst (extract_pdf_text lower env pdf_path (backend_name b))) = false /\
   In (Log ERROR MsgAllFailed) (snd (extract_pdf_text lower env pdf_path (backend_name b))) /\
   (backend_result env pdf_path b <> Some [] ->
    fst (extract_pdf_text lower env pdf_path (backend_name b)) = None /\
    List.length (reasons (snd (extract_pdf_text lower env pdf_path (backend_name b)))) = 1)).
Proof.
  intros Hv.
  assert (Hsel : selected (backend_name b) = [b]) by (destruct b; reflexivity).
  destruct (is_acceptable (backend_result env pdf_path b)) eqn:Hb.
  - destruct (@extract_pdf_text_accepts lower env pdf_path (backend_name b) [] b [])
      as [E1 E2]; auto.
    { intros b' []. }
    split; [exact E2|]. split; [auto | discriminate].
  - assert (Hrej : forall b', In b' (selected (backend_name b)) ->
                     is_acceptable (backend_result env pdf_path b') = false).
    { rewrite Hsel. intros b' [<- | []]. exact Hb. }
    assert (F : carried_text env pdf_path [b] None = None \/
                carried_text env pdf_path [b] None = Some []).
    { apply carried_text_falsy. now left. }
    rewrite (@extract_pdf_text_rejects lower env pdf_path (backend_name b) Hv Hrej).
    rewrite Hsel in *. cbn [fst snd].
    split; [rewrite calls_framed by reflexivity; apply calls_attempts|].
    split; [discriminate|]. intros _.
    split; [destruct F as [F | F]; rewrite F; reflexivity|].
    split; [apply in_or_app; right; apply in_or_app; right; now left|].
    intros Hne.
    assert (Hne' : forall b', In b' [b] -> backend_result env pdf_path b' <> Some []).
    { intros b' [<- | []]. exact Hne. }
    destruct (attempts_reasons env pdf_path [b] Hrej Hne') as (_ & _ & R3).
    split; [apply carried_text_falsy; auto|].
    rewrite !reasons_app, !length_app, R3. reflexivity.
Qed.

Lemma single_method_attempts_only_that_backend_witness :
  calls (snd (extract_pdf_text ascii_lower scanned_then_text (u8 "Doc.PDF")
                (backend_name Pdfplumber))) = [Pdfplumber] /\
  (is_acceptable (backend_result scanned_then_text (u8 "Doc.PDF") Pdfplumber) = true ->
   fst (extract_pdf_text ascii_lower scanned_then_text (u8 "Doc.PDF")
          (backend_name Pdfplumber))
   = backend_result scanned_then_text (u8 "Doc.PDF") Pdfplumber) /\
  (is_acceptable (backend_result scanned_then_text (u8 "Doc.PDF") Pdfplumber) = false ->
   truthy (fst (extract_pdf_text ascii_lower scanned_then_text (u8 "Doc.PDF")
                  (backend_name Pdfplumber))) = false /\
   In (Log ERROR MsgAllFailed)
      (snd (extract_pdf_text ascii_lower scanned_then_text (u8 "Doc.PDF")
              (backend_name Pdfplumber))) /\
   (backend_result scanned_then_text (u8 "Doc.PDF") Pdfplumber <> Some [] ->
    fst (extract_pdf_text ascii_lower scanned_then_text (u8 "Doc.PDF")
           (backend_name Pdfplumber)) = None /\
    List.length (reasons (snd (extract_pdf_text ascii_lower scanned_then_text
                                 (u8 "Doc.PDF") (backend_name Pdfplumber)))) = 1)).
Proof.
  apply (@single_method_attempts_only_that_backend ascii_lower scanned_then_text
           (u8 "Doc.PDF") Pdfplumber).
  reflexivity.
Defined.

(** On [scanned_then_text] pypdf would have been accepted, yet with
    ['pdfplumber'] selected the request fails after that one attempt. *)
Example single_method_no_fallback :
  is_acceptable (backend_result scanned_then_text (u8 "Doc.PDF") Pypdf) = true /\
  extract_pdf_text ascii_lower scanned_then_text (u8 "Doc.PDF") (u8 "pdfplumber")
  = (None,
     [Log INFO (MsgStart (u8 "Doc.PDF") 8);
      Call Pdfplumber;
      Log INFO (MsgUsing Pdfplumber (u8 "Doc.PDF"));
      Log INFO (MsgProgress 3 3);
      Log WARNING (MsgSomePagesNoText Pdfplumber);
      Log WARNING (MsgTooLittle (u8 "pdfplumber"));
      Log ERROR MsgAllFailed]).
Proof. split; vm_compute; reflexivity. Qed.

(** C5 as stated does not hold when the selected backend returns the empty
    string: on a document without pages, with ['pdfplumber'] selected, the
    backend is attempted and its result rejected, but no reason is recorded
    and the value returned is the empty string. *)
Lemma single_method_empty_result_has_no_reason :
  is_acceptable (backend_result no_pages (u8 "a.pdf") Pdfplumber) = false /\
  calls (snd (extract_pdf_text ascii_lower no_pages (u8 "a.pdf") (u8 "pdfplumber")))
  = [Pdfplumber] /\
  reasons (snd (extract_pdf_text ascii_lower no_pages (u8 "a.pdf") (u8 "pdfplumber")))
  = [] /\
  fst (extract_pdf_text ascii_lower no_pages (u8 "a.pdf") (u8 "pdfplumber")) = Some [].
Proof. repeat split; vm_compute; reflexivity. Qed.

(** C10. On a document that passes the validator, a method that is neither
    ['auto'] nor one of the three backend names invokes no backend: the
    function returns [None], having logged the start of the extraction and
    the closing error. *)
Theorem unknown_method_returns_none (lower : str -> str) (env : Env)
    (pdf_path method : str) :
  fst (check_pdf_file lower env pdf_path) = true ->
  method <> u8 "auto" ->
  method <> u8 "pdfplumber" ->
  method <> u8 "pypdf" ->
  method <> u8 "pdfminer" ->
  fst (extract_pdf_text lower env pdf_path method) = None /\
  calls (snd (extract_pdf_text lower env pdf_path method)) = [] /\
  snd (extract_pdf_text lower env pdf_path method)
  = [Log INFO (MsgStart pdf_path (getsize env pdf_path)); Log ERROR MsgAllFailed].
Proof.
  intros Hv Ha H1 H2 H3.
  assert (F : forall n, method <> n -> str_eqb method n = false).
  { intros n Hn. destruct (str_eqb method n) eqn:E; [|reflexivity].
    apply str_eqb_eq in E. contradiction. }
  rewrite (@extract_pdf_text_valid lower env pdf_path method Hv).
  unfold methods_of. rewrite (F _ Ha).
  cbn [try_methods]. unfold dispatch. rewrite (F _ H1), (F _ H2), (F _ H3).
  cbn. auto.
Qed.

Lemma unknown_method_returns_none_witness :
  fst (extract_pdf_text ascii_lower scanned_then_text (u8 "Doc.PDF") (u8 "ocr")) = None /\
  calls (snd (extract_pdf_text ascii_lower scanned_then_text (u8 "Doc.PDF") (u8 "ocr"))) = [] /\
  snd (extract_pdf_text ascii_lower scanned_then_text (u8 "Doc.PDF") (u8 "ocr"))
  = [Log INFO (MsgStart (u8 "Doc.PDF") (getsize scanned_then_text (u8 "Doc.PDF")));
     Log ERROR MsgAllFailed].
Proof.
  apply (@unknown_method_returns_none ascii_lower scanned_then_text (u8 "Doc.PDF") (u8 "ocr"));
    [reflexivity | vm_compute; discriminate ..].
Defined.

(** ** The validator *)

Lemma reasons_distinct (p p' : str) (e : exn) :
  reason_missing p <> reason_not_pdf p' /\
  reason_missing p <> reason_no_signature /\
  reason_not_pdf p' <> reason_no_signature /\
  reason_read_failed e <> reason_missing p /\
  reason_read_failed e <> reason_not_pdf p' /\
  reason_read_failed e <> reason_no_signature.
Proof.
  unfold reason_missing, reason_not_pdf, reason_no_signature, reason_read_failed.
  repeat split; intros H; cbn in H; discriminate H.
Qed.

(** A path rejected by the validator: nothing is invoked. *)
Lemma extract_pdf_text_invalid (lower : str -> str) (env : Env) (pdf_path method : str) :
  fst (check_pdf_file lower env pdf_path) = false ->
  extract_pdf_text lower env pdf_path method
  = (None, [Log ERROR (MsgInvalid (snd (check_pdf_file lower env pdf_path)))]).
Proof.
  intros H. unfold extract_pdf_text.
  destruct (check_pdf_file lower env pdf_path) as [is_valid msg].
  simpl in H. now subst is_valid.
Qed.

(** C4. [check_pdf_file] tests, in this order and stopping at the first
    failure, that the path exists, that its lowercased name ends in [.pdf],
    and that the first five bytes of the file start with the signature
    [%PDF]; a path passing the three (the file being readable) is valid.
    The three failures give three different reason strings, and a rejected
    path makes [extract_pdf_text] return [None] without invoking a backend. *)
Theorem check_pdf_file_three_checks (lower : str -> str) (env : Env) (pdf_path : str) :
  (path_exists env pdf_path = false ->
   check_pdf_file lower env pdf_path = (false, reason_missing pdf_path)) /\
  (path_exists env pdf_path = true ->
   endswith (lower pdf_path) (u8 ".pdf") = false ->
   check_pdf_file lower env pdf_path = (false, reason_not_pdf pdf_path)) /\
  (forall bytes,
     path_exists env pdf_path = true ->
     endswith (lower pdf_path) (u8 ".pdf") = true ->
     open_rb env pdf_path = Ok bytes ->
     check_pdf_file lower env pdf_path
     = if bytes_startswith (firstn 5 bytes) pdf_signature
       then (true, reason_valid)
       else (false, reason_no_signature)) /\
  (forall p p',
     reason_missing p <> reason_not_pdf p' /\
     reason_missing p <> reason_no_signature /\
     reason_not_pdf p' <> reason_no_signature) /\
  (forall method,
     fst (check_pdf_file lower env pdf_path) = false ->
     fst (extract_pdf_text lower env pdf_path method) = None /\
     calls (snd (extract_pdf_text lower env pdf_path method)) = []).
Proof.
  unfold check_pdf_file.
  split; [intros ->; reflexivity|].
  split; [intros -> ->; reflexivity|].
  split; [intros bytes -> -> ->; cbn [negb];
          now destruct (bytes_startswith (firstn 5 bytes) pdf_signature)|].
  split.
  - intros p p'.
    destruct (reasons_distinct p p' (OtherError [])) as (H1 & H2 & H3 & _). auto.
  - intros method H. fold (check_pdf_file lower env pdf_path) in H.
    rewrite (@extract_pdf_text_invalid lower env pdf_path method H). auto.
Qed.

Lemma check_pdf_file_three_checks_witness :
  check_pdf_file ascii_lower (file_env false (Ok pdf_bytes)) (u8 "gone.txt")
  = (false, reason_missing (u8 "gone.txt")) /\
  check_pdf_file ascii_lower (file_env true (Ok pdf_bytes)) (u8 "notes.txt")
  = (false, reason_not_pdf (u8 "notes.txt")) /\
  check_pdf_file ascii_lower (file_env true (Ok html_bytes)) (u8 "page.pdf")
  = (false, reason_no_signature) /\
  check_pdf_file ascii_lower (file_env true (Ok pdf_bytes)) (u8 "paper.pdf")
  = (true, reason_valid) /\
  fst (extract_pdf_text ascii_lower (file_env true (Ok html_bytes)) (u8 "page.pdf")
         (u8 "auto")) = None /\
  calls (snd (extract_pdf_text ascii_lower (file_env true (Ok html_bytes)) (u8 "page.pdf")
                (u8 "auto"))) = [].
Proof.
  split; [|split; [|split; [|split]]].
  - apply (proj1 (check_pdf_file_three_checks ascii_lower
                    (file_env false (Ok pdf_bytes)) (u8 "gone.txt"))).
    reflexivity.
  - apply (proj1 (proj2 (check_pdf_file_three_checks ascii_lower
                           (file_env true (Ok pdf_bytes)) (u8 "notes.txt"))));
      reflexivity.
  - apply (proj1 (proj2 (proj2 (check_pdf_file_three_checks ascii_lower
                                  (file_env true (Ok html_bytes)) (u8 "page.pdf"))))
             html_bytes); reflexivity.
  - apply (proj1 (proj2 (proj2 (check_pdf_file_three_checks ascii_lower
                                  (file_env true (Ok pdf_bytes)) (u8 "paper.pdf"))))
             pdf_bytes); reflexivity.
  - apply (proj2 (proj2 (proj2 (proj2 (check_pdf_file_three_checks ascii_lower
                                         (file_env true (Ok html_bytes)) (u8 "page.pdf")))))
             (u8 "auto")).
    reflexivity.
Defined.

Lemma endswith_suffix (a p : str) : endswith (a ++ p) p = true.
Proof. unfold endswith. rewrite rev_app_distr. apply startswith_prefix. Qed.

(** Whatever the case of its letters, a [.pdf] extension is one after
    ASCII lowercasing. *)
Lemma ascii_lower_extension (stem ext : str) :
  ascii_lower ext = u8 ".pdf" ->
  endswith (ascii_lower (stem ++ ext)) (u8 ".pdf") = true.
Proof.
  intros H.
  assert (E : ascii_lower (stem ++ ext) = ascii_lower stem ++ ascii_lower ext)
    by apply map_app.
  rewrite E, H. apply endswith_suffix.
Qed.

(** C8. The extension test is made on the lowercased path: an existing path
    whose lowercased name ends in [.pdf] is not rejected for its extension,
    and the verdict is that of reading the file and testing the signature. *)
Theorem extension_check_is_case_insensitive (lower : str -> str) (env : Env)
    (pdf_path : str) :
  path_exists env pdf_path = true ->
  endswith (lower pdf_path) (u8 ".pdf") = true ->
  check_pdf_file lower env pdf_path
  = match open_rb env pdf_path with
    | Ok bytes =>
        if bytes_startswith (firstn 5 bytes) pdf_signature
        then (true, reason_valid)
        else (false, reason_no_signature)
    | Raise e => (false, reason_read_failed e)
    end /\
  snd (check_pdf_file lower env pdf_path) <> reason_not_pdf pdf_path.
Proof.
  intros He Hx. unfold check_pdf_file. rewrite He, Hx. cbn [negb].
  destruct (open_rb env pdf_path) as [bytes|e].
  - destruct (bytes_startswith (firstn 5 bytes) pdf_signature); cbn [negb snd];
      (split; [reflexivity|]).
    + unfold reason_valid, reason_not_pdf. intros H. cbn in H. discriminate H.
    + intros H. symmetry in H. revert H.
      apply (reasons_distinct pdf_path pdf_path (OtherError [])).
  - split; [reflexivity|]. cbn [snd]. apply (reasons_distinct pdf_path pdf_path e).
Qed.

Lemma extension_check_is_case_insensitive_witness :
  (check_pdf_file ascii_lower (file_env true (Ok pdf_bytes)) (u8 "REPORT.PDF")
   = (true, reason_valid) /\
   snd (check_pdf_file ascii_lower (file_env true (Ok pdf_bytes)) (u8 "REPORT.PDF"))
   <> reason_not_pdf (u8 "REPORT.PDF")) /\
  (check_pdf_file ascii_lower (file_env true (Ok html_bytes)) (u8 "Scan.Pdf")
   = (false, reason_no_signature) /\
   snd (check_pdf_file ascii_lower (file_env true (Ok html_bytes)) (u8 "Scan.Pdf"))
   <> reason_not_pdf (u8 "Scan.Pdf")).
Proof.
  split.
  - apply (@extension_check_is_case_insensitive ascii_lower
             (file_env true (Ok pdf_bytes)) (u8 "REPORT.PDF")).
    + reflexivity.
    + apply (ascii_lower_extension (u8 "REPORT") (u8 ".PDF")). reflexivity.
  - apply (@extension_check_is_case_insensitive ascii_lower
             (file_env true (Ok html_bytes)) (u8 "Scan.Pdf")); reflexivity.
Defined.

(** C9. When the path exists and has the extension but opening or reading
    the file raises, [check_pdf_file] returns [False] with the reason
    "read failed" followed by the text of the exception, a reason different
    from the three of the checks; the exception goes no further, and
    [extract_pdf_text] returns [None] without invoking a backend. *)
Theorem read_failure_is_reported (lower : str -> str) (env : Env)
    (pdf_path : str) (e : exn) :
  path_exists env pdf_path = true ->
  endswith (lower pdf_path) (u8 ".pdf") = true ->
  open_rb env pdf_path = Raise e ->
  check_pdf_file lower env pdf_path = (false, reason_read_failed e) /\
  (forall p p',
     reason_read_failed e <> reason_missing p /\
     reason_read_failed e <> reason_not_pdf p' /\
     reason_read_failed e <> reason_no_signature) /\
  (forall method,
     extract_pdf_text lower env pdf_path method
     = (None, [Log ERROR (MsgInvalid (reason_read_failed e))])).
Proof.
  intros He Hx Ho.
  assert (C : check_pdf_file lower env pdf_path = (false, reason_read_failed e)).
  { unfold check_pdf_file. now rewrite He, Hx, Ho. }
  split; [exact C|]. split.
  - intros p p'. destruct (reasons_distinct p p' e) as (_ & _ & _ & H). exact H.
  - intros method. rewrite extract_pdf_text_invalid; now rewrite C.
Qed.

Lemma read_failure_is_reported_witness :
  check_pdf_file ascii_lower (file_env true (Raise is_a_directory)) (u8 "folder.pdf")
  = (false, reason_read_failed is_a_directory) /\
  (forall p p',
     reason_read_failed is_a_directory <> reason_missing p /\
     reason_read_failed is_a_directory <> reason_not_pdf p' /\
     reason_read_failed is_a_directory <> reason_no_signature) /\
  (forall method,
     extract_pdf_text ascii_lower (file_env true (Raise is_a_directory)) (u8 "folder.pdf")
       method
     = (None, [Log ERROR (MsgInvalid (reason_read_failed is_a_directory))])).
Proof.
  apply (@read_failure_is_reported ascii_lower (file_env true (Raise is_a_directory))
           (u8 "folder.pdf") is_a_directory); reflexivity.
Defined.

Example read_failure_reason :
  reason_read_failed is_a_directory
  = u8 "文件读取失败: [Errno 21] Is a directory: 'folder.pdf'".
Proof. vm_compute. reflexivity. Qed.

(** ** More on the validator *)

Lemma bytes_startswith_firstn (n : nat) (bytes p : list byte) :
  List.length p <= n ->
  bytes_startswith (firstn n bytes) p = bytes_startswith bytes p.
Proof.
  revert n bytes. induction p as [|y p IH]; intros n bytes Hn.
  - now destruct (firstn n bytes), bytes.
  - destruct n as [|n]; [simpl in Hn; lia|].
    destruct bytes as [|x bytes]; [reflexivity|].
    cbn [firstn bytes_startswith]. rewrite IH; [reflexivity | simpl in Hn; lia].
Qed.

Lemma bytes_startswith_length (bytes p : list byte) :
  bytes_startswith bytes p = true -> List.length p <= List.length bytes.
Proof.
  revert bytes. induction p as [|y p IH]; intros bytes H; [simpl; lia|].
  destruct bytes as [|x bytes]; [discriminate|].
  cbn [bytes_startswith] in H. apply andb_true_iff in H. destruct H as [_ H].
  apply IH in H. simpl. lia.
Qed.

Lemma bytes_startswith_iff (bytes p : list byte) :
  bytes_startswith bytes p = true <-> firstn (List.length p) bytes = p.
Proof.
  revert bytes. induction p as [|y p IH]; intros bytes.
  - simpl. destruct bytes; tauto.
  - destruct bytes as [|x bytes]; [simpl; split; discriminate|].
    cbn [bytes_startswith List.length firstn].
    rewrite andb_true_iff, IH. split.
    + intros [E ->]. f_equal.
      pose proof (Byte.byte_dec_bl x y E) as ->. reflexivity.
    + intros H. injection H as -> H. split; [|exact H].
      apply Byte.byte_dec_lb. reflexivity.
Qed.

(** X1. [check_pdf_file] answers [True] exactly when the path exists, its
    lowercased name ends in [.pdf], the file can be opened and read, and its
    first four bytes are [%PDF]; the message is then "文件有效", and it is
    that message for no rejected path. *)
Theorem check_pdf_file_valid_iff (lower : str -> str) (env : Env) (pdf_path : str) :
  (fst (check_pdf_file lower env pdf_path) = true <->
   path_exists env pdf_path = true /\
   endswith (lower pdf_path) (u8 ".pdf") = true /\
   exists bytes, open_rb env pdf_path = Ok bytes /\ firstn 4 bytes = pdf_signature) /\
  (fst (check_pdf_file lower env pdf_path) = true <->
   snd (check_pdf_file lower env pdf_path) = reason_valid).
Proof.
  assert (V1 : forall p, reason_missing p <> reason_valid).
  { intros p H. unfold reason_missing, reason_valid in H. cbn in H. discriminate H. }
  assert (V2 : forall p, reason_not_pdf p <> reason_valid).
  { intros p H. unfold reason_not_pdf, reason_valid in H. cbn in H. discriminate H. }
  assert (V3 : reason_no_signature <> reason_valid).
  { intros H. unfold reason_no_signature, reason_valid in H. cbn in H. discriminate H. }
  assert (V4 : forall e, reason_read_failed e <> reason_valid).
  { intros e H. unfold reason_read_failed, reason_valid in H. cbn in H. discriminate H. }
  unfold check_pdf_file.
  destruct (path_exists env pdf_path); cbn [negb fst snd].
  2:{ split; split; try discriminate;
        try solve [intros [H _]; discriminate H | intros H; now apply V1 in H]. }
  destruct (endswith (lower pdf_path) (u8 ".pdf")); cbn [negb fst snd].
  2:{ split; split; try discriminate;
        try solve [intros (_ & H & _); discriminate H | intros H; now apply V2 in H]. }
  destruct (open_rb env pdf_path) as [bytes|e]; cbn [fst snd].
  - rewrite bytes_startswith_firstn by (simpl; lia).
    destruct (bytes_startswith bytes pdf_signature) eqn:E; cbn [negb fst snd].
    + apply bytes_startswith_iff in E. split; split; auto.
      intros _. repeat split. exists bytes. auto.
    + split; split; try discriminate;
        try solve [intros H; now apply V3 in H].
      intros (_ & _ & b & Hb & Hs). injection Hb as <-.
      apply (bytes_startswith_iff bytes pdf_signature) in Hs. congruence.
  - split; split; try discriminate;
      try solve [intros (_ & _ & b & Hb & _); discriminate Hb
                | intros H; now apply V4 in H].
Qed.

(** X2. A readable file of fewer than four bytes, the empty file included,
    is rejected for its missing signature even though it exists and has the
    extension. *)
Theorem check_pdf_file_short_file (lower : str -> str) (env : Env)
    (pdf_path : str) (bytes : list byte) :
  path_exists env pdf_path = true ->
  endswith (lower pdf_path) (u8 ".pdf") = true ->
  open_rb env pdf_path = Ok bytes ->
  List.length bytes < 4 ->
  check_pdf_file lower env pdf_path = (false, reason_no_signature).
Proof.
  intros He Hx Ho Hlen. unfold check_pdf_file. rewrite He, Hx, Ho. cbn [negb].
  destruct (bytes_startswith (firstn 5 bytes) pdf_signature) eqn:E; [|reflexivity].
  apply bytes_startswith_length in E. rewrite length_firstn in E.
  change (List.length pdf_signature) with 4 in E.
  pose proof (Nat.le_min_r 5 (List.length bytes)). lia.
Qed.

Lemma check_pdf_file_short_file_witness :
  check_pdf_file ascii_lower (file_env true (Ok [x25; x50; x44])) (u8 "stub.pdf")
  = (false, reason_no_signature).
Proof.
  apply (@check_pdf_file_short_file ascii_lower (file_env true (Ok [x25; x50; x44]))
           (u8 "stub.pdf") [x25; x50; x44]); try reflexivity.
  simpl. lia.
Defined.

(** X3. Of the five bytes read only the first four count: two readable
    files that agree on their first four bytes get the same verdict and the
    same message, at the same path. *)
Theorem check_pdf_file_first_four_bytes (lower : str -> str) (env1 env2 : Env)
    (pdf_path : str) (bytes1 bytes2 : list byte) :
  path_exists env1 pdf_path = path_exists env2 pdf_path ->
  open_rb env1 pdf_path = Ok bytes1 ->
  open_rb env2 pdf_path = Ok bytes2 ->
  firstn 4 bytes1 = firstn 4 bytes2 ->
  check_pdf_file lower env1 pdf_path = check_pdf_file lower env2 pdf_path.
Proof.
  intros He H1 H2 H4. unfold check_pdf_file. rewrite He, H1, H2.
  destruct (path_exists env2 pdf_path); [|reflexivity].
  destruct (endswith (lower pdf_path) (u8 ".pdf")); [|reflexivity].
  cbn [negb].
  rewrite !bytes_startswith_firstn by (simpl; lia).
  assert (E : bytes_startswith bytes1 pdf_signature = bytes_startswith bytes2 pdf_signature).
  { destruct (bytes_startswith bytes1 pdf_signature) eqn:E1;
      destruct (bytes_startswith bytes2 pdf_signature) eqn:E2; try reflexivity.
    - apply bytes_startswith_iff in E1. simpl List.length in E1.
      rewrite H4 in E1.
      apply (proj2 (bytes_startswith_iff bytes2 pdf_signature)) in E1. congruence.
    - apply bytes_startswith_iff in E2. simpl List.length in E2.
      rewrite <- H4 in E2.
      apply (proj2 (bytes_startswith_iff bytes1 pdf_signature)) in E2. congruence. }
  now rewrite E.
Qed.

Lemma check_pdf_file_first_four_bytes_witness :
  check_pdf_file ascii_lower (file_env true (Ok pdf_bytes)) (u8 "paper.pdf")
  = check_pdf_file ascii_lower (file_env true (Ok [x25; x50; x44; x46; x21])) (u8 "paper.pdf").
Proof.
  apply (@check_pdf_file_first_four_bytes ascii_lower
           (file_env true (Ok pdf_bytes)) (file_env true (Ok [x25; x50; x44; x46; x21]))
           (u8 "paper.pdf") pdf_bytes [x25; x50; x44; x46; x21]); reflexivity.
Defined.

(** ** Lines of a text *)

Lemma split_cons_other (sep c : char) (s : str) :
  c <> sep ->
  split sep (c :: s) = (c :: hd [] (split sep s)) :: tl (split sep s).
Proof.
  intros H. cbn [split]. apply N.eqb_neq in H. rewrite H.
  pose proof (split_not_nil sep s). now destruct (split sep s).
Qed.

(** [(a + sep + b).split(sep) == a.split(sep) + b.split(sep)] *)
Lemma split_app_sep (sep : char) (a b : str) :
  split sep (a ++ sep :: b) = split sep a ++ split sep b.
Proof.
  induction a as [|c a IH].
  - cbn [app split]. now rewrite N.eqb_refl.
  - cbn [app]. destruct (N.eq_dec c sep) as [-> | Hc].
    + cbn [split]. rewrite N.eqb_refl, IH. reflexivity.
    + rewrite !split_cons_other, IH by exact Hc.
      pose proof (split_not_nil sep a). now destruct (split sep a).
Qed.

Lemma split_no_sep (sep : char) (a : str) :
  ~ In sep a -> split sep a = [a].
Proof.
  induction a as [|c a IH]; intros H; [reflexivity|].
  rewrite split_cons_other, IH; [reflexivity | | ]; simpl in H; intuition.
Qed.

(** A separator-free prefix stays on the first line. *)
Lemma split_app_no_sep (sep : char) (a s : str) :
  ~ In sep a ->
  split sep (a ++ s) = (a ++ hd [] (split sep s)) :: tl (split sep s).
Proof.
  induction a as [|c a IH]; intros H.
  - cbn [app]. pose proof (split_not_nil sep s). now destruct (split sep s).
  - cbn [app]. rewrite split_cons_other, IH; simpl in H; intuition.
Qed.

Lemma split_lines_no_sep (sep : char) (s l : str) :
  In l (split sep s) -> ~ In sep l.
Proof.
  revert l. induction s as [|c s IH]; intros l Hl.
  - destruct Hl as [<- | []]. intros [].
  - destruct (N.eq_dec c sep) as [-> | Hc].
    + cbn [split] in Hl. rewrite N.eqb_refl in Hl.
      destruct Hl as [<- | Hl]; [intros [] | now apply IH].
    + rewrite split_cons_other in Hl by exact Hc.
      pose proof (split_not_nil sep s) as Hn.
      destruct (split sep s) as [|l0 ls]; [congruence|]. cbn [hd tl] in Hl.
      destruct Hl as [<- | Hl].
      * intros [E | Hin]; [congruence|]. revert Hin. apply IH. now left.
      * apply IH. now right.
Qed.

(** ["\n".join(s.split("\n")) == s] *)
Lemma join_split (sep : char) (s : str) : join [sep] (split sep s) = s.
Proof.
  induction s as [|c s IH]; [reflexivity|].
  pose proof (split_not_nil sep s) as Hn.
  destruct (N.eq_dec c sep) as [-> | Hc].
  - cbn [split]. rewrite N.eqb_refl.
    destruct (split sep s) as [|l ls] eqn:E; [congruence|].
    rewrite <- IH. reflexivity.
  - rewrite split_cons_other by exact Hc.
    destruct (split sep s) as [|l ls] eqn:E; [congruence|]. cbn [hd tl].
    destruct ls; rewrite <- IH; reflexivity.
Qed.

(** [(sep.join(ls)).split(sep) == ls] for a non-empty list of lines. *)
Lemma split_join (sep : char) (ls : list str) :
  ls <> [] -> Forall (fun l => ~ In sep l) ls ->
  split sep (join [sep] ls) = ls.
Proof.
  induction ls as [|l ls IH]; intros Hne Hf; [congruence|].
  apply Forall_cons_iff in Hf. destruct Hf as [Hl Hf].
  destruct ls as [|l' ls].
  - cbn [join]. now apply split_no_sep.
  - change (join [sep] (l :: l' :: ls)) with (l ++ sep :: join [sep] (l' :: ls)).
    rewrite split_app_sep, split_no_sep, IH; auto. discriminate.
Qed.

Lemma content_lines_app_sep (a b : str) :
  content_lines (a ++ NL :: b) = content_lines a ++ content_lines b.
Proof.
  unfold content_lines. now rewrite split_app_sep, filter_app.
Qed.

Lemma startswith_app_l (a p r : str) :
  startswith a p = true -> startswith (a ++ r) p = true.
Proof.
  revert a. induction p as [|y p IH]; intros a H; [now destruct (a ++ r)|].
  destruct a as [|x a]; [discriminate|].
  cbn [app startswith] in *. apply andb_true_iff in H. destruct H as [-> H].
  now rewrite (IH a H).
Qed.

(** The characters of [str(i)] are decimal digits. *)
Lemma str_of_nat_digits (n : nat) :
  Forall (fun c => (48 <= c <= 57)%N) (str_of_nat n).
Proof.
  unfold str_of_nat.
  assert (H : forall d, Forall (fun c => (48 <= c <= 57)%N)
                (map N_of_ascii (list_ascii_of_string (NilEmpty.string_of_uint d)))).
  { induction d; cbn [NilEmpty.string_of_uint list_ascii_of_string map];
      constructor; try exact IHd; cbn; lia. }
  unfold NilZero.string_of_uint.
  destruct (Nat.to_uint n) eqn:E; try (rewrite <- E; apply H).
  cbn. repeat constructor; cbn; lia.
Qed.

(** A page marker is plain printable ASCII: no newline, no CJK. *)
Lemma page_marker_ascii (i : nat) :
  Forall (fun c => (32 <= c <= 61)%N \/ (65 <= c <= 122)%N) (page_marker i).
Proof.
  unfold page_marker. rewrite !Forall_app. repeat split.
  - cbn. repeat constructor; cbn; lia.
  - eapply Forall_impl; [|apply str_of_nat_digits]. cbn. intros c Hc. lia.
  - cbn. repeat constructor; cbn; lia.
Qed.

Lemma page_marker_no_newline (i : nat) : ~ In NL (page_marker i).
Proof.
  intros H. pose proof (page_marker_ascii i) as F.
  rewrite Forall_forall in F. apply F in H. unfold NL in H. lia.
Qed.

Lemma page_marker_is_marker (i : nat) (r : str) :
  startswith (page_marker i ++ r) (u8 "===") = true.
Proof. unfold page_marker. rewrite <- app_assoc. reflexivity. Qed.

(** ** What the judge counts in an adapter's text *)

Lemma marker_line_not_content (l : str) :
  startswith l (u8 "===") = true -> is_content_line l = false.
Proof.
  intros H. unfold is_content_line. rewrite H. apply andb_false_r.
Qed.

Lemma content_lines_nil : content_lines [] = [].
Proof. reflexivity. Qed.

Lemma content_lines_marker_line (m r : str) :
  ~ In NL m -> startswith m (u8 "===") = true ->
  content_lines (m ++ NL :: r) = content_lines r.
Proof.
  intros Hn Hm. rewrite content_lines_app_sep.
  unfold content_lines at 1. rewrite split_no_sep by exact Hn.
  cbn [filter]. now rewrite (marker_line_not_content m Hm).
Qed.

Lemma content_lines_page_part (i : nat) (t : py_text) (rest : str) :
  content_lines (page_part i t ++ rest)
  = match t with Some s => content_lines s | None => [] end ++ content_lines rest.
Proof.
  assert (T : ~ In NL (page_marker i ++ u8 " [" ++ no_text_tag ++ u8 "]")).
  { intros H. apply in_app_or in H. destruct H as [H | H].
    - now apply page_marker_no_newline in H.
    - cbn in H. unfold NL in H. intuition discriminate. }
  assert (E : content_lines
                ((page_marker i ++ u8 " [" ++ no_text_tag ++ u8 "]" ++ [NL]) ++ rest)
              = content_lines rest).
  { replace ((page_marker i ++ u8 " [" ++ no_text_tag ++ u8 "]" ++ [NL]) ++ rest)
      with ((page_marker i ++ u8 " [" ++ no_text_tag ++ u8 "]") ++ NL :: rest)
      by (rewrite <- !app_assoc; reflexivity).
    apply content_lines_marker_line; [exact T | apply page_marker_is_marker]. }
  unfold page_part. destruct t as [[|c s]|]; try exact E.
  replace ((page_marker i ++ [NL] ++ (c :: s) ++ [NL]) ++ rest)
    with ((page_marker i ++ []) ++ NL :: ((c :: s) ++ NL :: rest))
    by (rewrite <- !app_assoc; reflexivity).
  rewrite content_lines_marker_line, content_lines_app_sep.
  - reflexivity.
  - rewrite app_nil_r. apply page_marker_no_newline.
  - apply page_marker_is_marker.
Qed.

Lemma segments_content_count (texts : list py_text) :
  forall i,
    List.length (content_lines (List.concat (segments i texts)))
    = pages_content_count texts.
Proof.
  unfold pages_content_count.
  induction texts as [|t texts IH]; intros i; [reflexivity|].
  change (list_sum (map content_count (t :: texts)))
    with (content_count t + list_sum (map content_count texts)).
  cbn [segments List.concat].
  rewrite content_lines_page_part, length_app, IH.
  now destruct t.
Qed.

Lemma extract_paged_result (b : backend) (import_lib : result unit)
    (open_pages : str -> result (list page)) (pdf_path : str) (texts : list py_text) :
  import_lib = Ok tt ->
  open_pages pdf_path = Ok (map (@Ok py_text) texts) ->
  fst (extract_paged b import_lib open_pages pdf_path)
  = Some (List.concat (segments 1 texts)).
Proof.
  intros Hi Ho. unfold extract_paged. rewrite Hi, Ho.
  pose proof (page_loop_ok texts 1 (List.length (map (@Ok py_text) texts)) []
                [Log INFO (MsgUsing b pdf_path)]) as H.
  destruct (page_loop _ _ _ _ _) as [r log']. simpl in H. now subst r.
Qed.

Lemma extract_paged_content_count (b : backend) (import_lib : result unit)
    (open_pages : str -> result (list page)) (pdf_path : str) (texts : list py_text) :
  import_lib = Ok tt ->
  open_pages pdf_path = Ok (map (@Ok py_text) texts) ->
  content_count (fst (extract_paged b import_lib open_pages pdf_path))
  = pages_content_count texts.
Proof.
  intros Hi Ho. rewrite (@extract_paged_result b import_lib open_pages pdf_path texts Hi Ho).
  apply segments_content_count.
Qed.

(** X4. The markers a page-oriented backend inserts never count as content:
    when no page raises, the text returned has exactly as many content lines
    as the page texts taken together, so it is accepted if and only if those
    have more than 5. *)
Theorem paged_result_content_count (env : Env) (pdf_path : str) (texts : list py_text) :
  (import_pdfplumber env = Ok tt ->
   pdfplumber_open env pdf_path = Ok (map (@Ok py_text) texts) ->
   content_count (fst (extract_with_pdfplumber env pdf_path)) = pages_content_count texts /\
   (is_acceptable (fst (extract_with_pdfplumber env pdf_path)) = true
    <-> 5 < pages_content_count texts)) /\
  (import_pypdf env = Ok tt ->
   PdfReader env pdf_path = Ok (map (@Ok py_text) texts) ->
   content_count (fst (extract_with_pypdf env pdf_path)) = pages_content_count texts /\
   (is_acceptable (fst (extract_with_pypdf env pdf_path)) = true
    <-> 5 < pages_content_count texts)).
Proof.
  split; intros Hi Ho.
  - pose proof (@extract_paged_content_count Pdfplumber _ _ _ _ Hi Ho) as E.
    fold (extract_with_pdfplumber env pdf_path) in E.
    split; [exact E|]. rewrite acceptable_iff_count, E. lia.
  - pose proof (@extract_paged_content_count Pypdf _ _ _ _ Hi Ho) as E.
    fold (extract_with_pypdf env pdf_path) in E.
    split; [exact E|]. rewrite acceptable_iff_count, E. lia.
Qed.

Lemma paged_result_content_count_witness :
  content_count
    (fst (extract_with_pypdf
            (sample_env (Ok []) (Ok (map (@Ok py_text) three_pages)) (Ok None))
            (u8 "doc.pdf")))
  = pages_content_count three_pages /\
  (is_acceptable
     (fst (extract_with_pypdf
             (sample_env (Ok []) (Ok (map (@Ok py_text) three_pages)) (Ok None))
             (u8 "doc.pdf"))) = true
   <-> 5 < pages_content_count three_pages).
Proof.
  apply (proj2 (paged_result_content_count
                  (sample_env (Ok []) (Ok (map (@Ok py_text) three_pages)) (Ok None))
                  (u8 "doc.pdf") three_pages)); reflexivity.
Defined.

(** X5. A document of which every page lacks text is rejected by the judge
    however many pages it has: the "no text" segments contain no content
    line. *)
Theorem paged_no_text_is_rejected (env : Env) (pdf_path : str) (texts : list py_text) :
  Forall (fun t => truthy t = false) texts ->
  (import_pdfplumber env = Ok tt ->
   pdfplumber_open env pdf_path = Ok (map (@Ok py_text) texts) ->
   is_acceptable (fst (extract_with_pdfplumber env pdf_path)) = false) /\
  (import_pypdf env = Ok tt ->
   PdfReader env pdf_path = Ok (map (@Ok py_text) texts) ->
   is_acceptable (fst (extract_with_pypdf env pdf_path)) = false).
Proof.
  intros Hf.
  assert (Z : pages_content_count texts = 0).
  { unfold pages_content_count. induction Hf as [|t ts Ht _ IH]; [reflexivity|].
    change (content_count t + list_sum (map content_count ts) = 0).
    rewrite IH. now destruct t as [[|c s]|]. }
  split; intros Hi Ho; apply not_acceptable_iff_count.
  - pose proof (@extract_paged_content_count Pdfplumber _ _ _ _ Hi Ho) as E.
    fold (extract_with_pdfplumber env pdf_path) in E. lia.
  - pose proof (@extract_paged_content_count Pypdf _ _ _ _ Hi Ho) as E.
    fold (extract_with_pypdf env pdf_path) in E. lia.
Qed.

Lemma paged_no_text_is_rejected_witness :
  is_acceptable
    (fst (extract_with_pdfplumber scanned_then_text (u8 "Doc.PDF"))) = false.
Proof.
  refine (proj1 (@paged_no_text_is_rejected scanned_then_text (u8 "Doc.PDF")
                   [None; Some []; None] _) _ _).
  - repeat constructor.
  - reflexivity.
  - reflexivity.
Defined.

(** ** What the judge counts in the text of pdfminer *)

Lemma estimated_marker_no_newline : ~ In NL estimated_marker.
Proof. cbn. unfold NL. intuition discriminate. Qed.

Lemma estimated_segment_lines (chunk : list str) :
  chunk <> [] -> Forall (fun l => ~ In NL l) chunk ->
  split NL (estimated_segment chunk)
  = (estimated_marker ++ hd [] chunk) :: tl chunk.
Proof.
  intros Hne Hf. unfold estimated_segment.
  rewrite split_app_no_sep by apply estimated_marker_no_newline.
  now rewrite split_join.
Qed.

Lemma estimated_segment_content (chunk : list str) :
  chunk <> [] -> Forall (fun l => ~ In NL l) chunk ->
  content_lines (estimated_segment chunk) = filter is_content_line (tl chunk).
Proof.
  intros Hne Hf. unfold content_lines.
  rewrite estimated_segment_lines by assumption. cbn [filter].
  rewrite marker_line_not_content; [reflexivity|].
  now apply startswith_app_l.
Qed.

Lemma content_lines_blank_line (a b : str) :
  content_lines (a ++ [NL; NL] ++ b) = content_lines a ++ content_lines b.
Proof.
  change (a ++ [NL; NL] ++ b) with (a ++ NL :: ([] ++ NL :: b)).
  now rewrite !content_lines_app_sep.
Qed.

Lemma joined_segments_content (chunks : list (list str)) :
  Forall (fun chunk => chunk <> [] /\ Forall (fun l => ~ In NL l) chunk) chunks ->
  content_lines (join [NL; NL] (map estimated_segment chunks))
  = List.concat (map (fun chunk => filter is_content_line (tl chunk)) chunks).
Proof.
  induction chunks as [|c chunks IH]; intros Hf; [reflexivity|].
  apply Forall_cons_iff in Hf. destruct Hf as [[Hne Hc] Hf].
  destruct chunks as [|c' chunks].
  - cbn [map join List.concat]. rewrite app_nil_r.
    now apply estimated_segment_content.
  - change (join [NL; NL] (map estimated_segment (c :: c' :: chunks)))
      with (estimated_segment c ++ [NL; NL]
            ++ join [NL; NL] (map estimated_segment (c' :: chunks))).
    rewrite content_lines_blank_line, (IH Hf), estimated_segment_content by assumption.
    reflexivity.
Qed.

Lemma filter_tl_length (chunk : list str) :
  chunk <> [] ->
  S (List.length (filter is_content_line (tl chunk))) <= List.length chunk /\
  List.length (filter is_content_line (tl chunk))
  <= List.length (filter is_content_line chunk).
Proof.
  destruct chunk as [|l ls]; [congruence|]. intros _. cbn [tl filter List.length].
  pose proof (filter_length_le is_content_line ls).
  split; [lia|]. destruct (is_content_line l); simpl; lia.
Qed.

Lemma chunks_content_bounds (chunks : list (list str)) :
  Forall (fun chunk => chunk <> []) chunks ->
  List.length (List.concat (map (fun chunk => filter is_content_line (tl chunk)) chunks))
  + List.length chunks <= List.length (List.concat chunks) /\
  List.length (List.concat (map (fun chunk => filter is_content_line (tl chunk)) chunks))
  <= List.length (filter is_content_line (List.concat chunks)).
Proof.
  induction 1 as [|c chunks Hc _ [IH1 IH2]]; [simpl; lia|].
  cbn [map List.concat List.length]. rewrite filter_app, !length_app.
  destruct (filter_tl_length Hc). lia.
Qed.

Lemma chunks_of_wellformed (text : str) (full : list (list str)) (last : list str) :
  split NL text = List.concat full ++ last ->
  Forall full_chunk full ->
  chunks_of full last <> [] /\
  List.concat (chunks_of full last) = split NL text /\
  Forall (fun chunk => chunk <> [] /\ Forall (fun l => ~ In NL l) chunk)
         (chunks_of full last).
Proof.
  intros Hc Hf.
  assert (C : List.concat (chunks_of full last) = split NL text).
  { unfold chunks_of. rewrite concat_app, Hc.
    destruct last; simpl; now rewrite ?app_nil_r. }
  split; [|split; [exact C|]].
  - intros E. rewrite E in C. simpl in C. symmetry in C.
    now apply split_not_nil in C.
  - apply Forall_forall. intros chunk Hin. split.
    + unfold chunks_of in Hin. apply in_app_or in Hin. destruct Hin as [Hin | Hin].
      * rewrite Forall_forall in Hf. now destruct (Hf chunk Hin).
      * destruct last; [destruct Hin|]. destruct Hin as [<- | []]. discriminate.
    + apply Forall_forall. intros l Hl.
      apply (@split_lines_no_sep NL text l). rewrite <- C.
      apply in_concat. eauto.
Qed.

(** X6. The marker of every estimated segment is glued to the first line of
    the segment, which therefore never counts as content.  The text that
    [extract_with_pdfminer] returns has fewer content lines than the text of
    pdfminer has lines, and no more than it has content lines; it is only
    accepted when pdfminer's text has at least 7 lines. *)
Theorem pdfminer_result_content_bound (env : Env) (pdf_path text : str) :
  import_pdfminer env = Ok tt ->
  extract_text env pdf_path = Ok (Some text) ->
  nonempty text = true ->
  content_count (fst (extract_with_pdfminer env pdf_path)) < List.length (split NL text) /\
  content_count (fst (extract_with_pdfminer env pdf_path)) <= content_count (Some text) /\
  (is_acceptable (fst (extract_with_pdfminer env pdf_path)) = true ->
   7 <= List.length (split NL text)).
Proof.
  intros Hi Ht Hne.
  destruct (estimated_pages_chunks text) as (full & last & Hc & Hf & _ & Hp).
  destruct (@chunks_of_wellformed text full last Hc Hf) as (N & C & W).
  assert (R : fst (extract_with_pdfminer env pdf_path)
              = Some (join [NL; NL] (map estimated_segment (chunks_of full last)))).
  { unfold extract_with_pdfminer. rewrite Hi, Ht.
    destruct text as [|c s]; [discriminate|]. cbn [fst]. now rewrite Hp. }
  rewrite R. cbn [content_count]. rewrite (joined_segments_content W).
  assert (W' : Forall (fun chunk => chunk <> []) (chunks_of full last)).
  { eapply Forall_impl; [|exact W]. now intros c [H _]. }
  destruct (chunks_content_bounds W') as [B1 B2].
  rewrite C in B1, B2.
  assert (K : 1 <= List.length (chunks_of full last)).
  { destruct (chunks_of full last); [congruence | simpl; lia]. }
  split; [lia|]. split; [exact B2|].
  intros A. apply acceptable_iff_count in A. cbn [content_count] in A.
  rewrite (joined_segments_content W) in A. lia.
Qed.

Lemma pdfminer_result_content_bound_witness :
  content_count
    (fst (extract_with_pdfminer
            (sample_env (Ok []) (Ok []) (Ok (Some six_plain_lines))) (u8 "doc.pdf")))
  < List.length (split NL six_plain_lines) /\
  content_count
    (fst (extract_with_pdfminer
            (sample_env (Ok []) (Ok []) (Ok (Some six_plain_lines))) (u8 "doc.pdf")))
  <= content_count (Some six_plain_lines) /\
  (is_acceptable
     (fst (extract_with_pdfminer
             (sample_env (Ok []) (Ok []) (Ok (Some six_plain_lines))) (u8 "doc.pdf")))
   = true -> 7 <= List.length (split NL six_plain_lines)).
Proof.
  apply (@pdfminer_result_content_bound
           (sample_env (Ok []) (Ok []) (Ok (Some six_plain_lines))) (u8 "doc.pdf")
           six_plain_lines); reflexivity.
Defined.

(** The judge accepts the six lines as they are, and rejects what the
    adapter makes of them. *)
Example six_plain_lines_rejected :
  is_acceptable (Some six_plain_lines) = true /\
  is_acceptable
    (fst (extract_with_pdfminer
            (sample_env (Ok []) (Ok []) (Ok (Some six_plain_lines))) (u8 "doc.pdf")))
  = false.
Proof. split; vm_compute; reflexivity. Qed.

Lemma paginate_below_threshold (lines : list str) :
  forall current_page pages,
    total_len (current_page ++ lines) < chars_per_page ->
    paginate lines current_page pages = (pages, current_page ++ lines).
Proof.
  induction lines as [|line rest IH]; intros cur pages H; cbn [paginate].
  - now rewrite app_nil_r.
  - assert (G : total_len (cur ++ [line]) <= total_len (cur ++ line :: rest)).
    { rewrite !total_len_app. simpl. lia. }
    destruct (chars_per_page <=? total_len (cur ++ [line])) eqn:E.
    + apply Nat.leb_le in E. lia.
    + rewrite IH; rewrite <- app_assoc; [reflexivity | exact H].
Qed.

(** X7. When the lines of pdfminer's text hold fewer than 2000 characters
    in all, the adapter returns one segment: the marker immediately followed
    by the text, unchanged.  The judge then accepts it exactly when the text
    has more than 5 content lines after its first line. *)
Theorem pdfminer_short_text (env : Env) (pdf_path text : str) :
  import_pdfminer env = Ok tt ->
  extract_text env pdf_path = Ok (Some text) ->
  nonempty text = true ->
  total_len (split NL text) < chars_per_page ->
  fst (extract_with_pdfminer env pdf_path) = Some (estimated_marker ++ text) /\
  is_acceptable (fst (extract_with_pdfminer env pdf_path))
  = (5 <? List.length (filter is_content_line (tl (split NL text)))).
Proof.
  intros Hi Ht Hne Hs.
  assert (P : estimated_pages text = [estimated_marker ++ text]).
  { unfold estimated_pages.
    rewrite (@paginate_below_threshold (split NL text) [] [] Hs). cbn [app].
    pose proof (split_not_nil NL text) as Hn.
    destruct (split NL text) as [|l ls] eqn:E; [congruence|].
    cbn [app]. rewrite <- E, join_split. reflexivity. }
  assert (R : fst (extract_with_pdfminer env pdf_path) = Some (estimated_marker ++ text)).
  { unfold extract_with_pdfminer. rewrite Hi, Ht.
    destruct text as [|c s]; [discriminate|]. cbn [fst]. now rewrite P. }
  split; [exact R|]. rewrite R.
  assert (T : has_text (Some (estimated_marker ++ text)) = true).
  { destruct (estimated_segment_head [text]) as (r & E).
    unfold estimated_segment in E. cbn [join] in E. rewrite E.
    now apply has_text_head. }
  unfold is_acceptable. rewrite T. cbn [andb]. unfold enough_content, content_lines.
  rewrite split_app_no_sep by apply estimated_marker_no_newline. cbn [filter].
  rewrite marker_line_not_content; [reflexivity|].
  now apply startswith_app_l.
Qed.

Lemma pdfminer_short_text_witness :
  fst (extract_with_pdfminer
         (sample_env (Ok []) (Ok []) (Ok (Some six_plain_lines))) (u8 "doc.pdf"))
  = Some (estimated_marker ++ six_plain_lines) /\
  is_acceptable
    (fst (extract_with_pdfminer
            (sample_env (Ok []) (Ok []) (Ok (Some six_plain_lines))) (u8 "doc.pdf")))
  = (5 <? List.length (filter is_content_line (tl (split NL six_plain_lines)))).
Proof.
  apply (@pdfminer_short_text
           (sample_env (Ok []) (Ok []) (Ok (Some six_plain_lines))) (u8 "doc.pdf")
           six_plain_lines); try reflexivity.
  vm_compute. lia.
Defined.

(** ** The log of a page-oriented adapter *)

Lemma page_loop_trace (texts : list py_text) :
  forall i total text_parts log,
    snd (page_loop (map (@Ok py_text) texts) i total text_parts log)
    = log ++ map (fun j => Log INFO (MsgProgress j total))
               (filter (fun j => (j mod 10 =? 0) || (j =? total))
                       (seq i (List.length texts))).
Proof.
  induction texts as [|t texts IH]; intros i total parts log.
  - simpl. now rewrite app_nil_r.
  - cbn [map page_loop List.length seq filter]. rewrite IH.
    destruct ((i mod 10 =? 0) || (i =? total)); [|reflexivity].
    cbn [map]. now rewrite <- app_assoc.
Qed.

Lemma contains_app_r (a b p : str) :
  contains b p = true -> contains (a ++ b) p = true.
Proof.
  intros H. induction a as [|c a IH]; [exact H|].
  cbn [app contains]. rewrite IH. apply orb_true_r.
Qed.

Lemma contains_prefix (p r : str) : contains (p ++ r) p = true.
Proof.
  destruct (p ++ r) eqn:E; cbn [contains]; rewrite <- E, startswith_prefix;
    reflexivity.
Qed.

Lemma startswith_head_absent (c : char) (s p : str) :
  p <> [] -> ~ In c p -> startswith (c :: s) p = false.
Proof.
  intros Hp Hc. destruct p as [|y p]; [congruence|].
  cbn [startswith]. destruct (N.eqb_spec c y) as [-> | _]; [|reflexivity].
  exfalso. apply Hc. now left.
Qed.

Lemma contains_absent (a p : str) :
  p <> [] -> Forall (fun c => ~ In c p) a -> contains a p = false.
Proof.
  intros Hp Ha. induction Ha as [|c a Hc _ IH].
  - destruct p; [congruence | reflexivity].
  - cbn [contains]. now rewrite startswith_head_absent, IH.
Qed.

Lemma startswith_app_absent (s b p : str) :
  Forall (fun c => ~ In c p) b ->
  startswith (s ++ b) p = startswith s p.
Proof.
  intros Hb. revert p Hb. induction s as [|x s IH]; intros p Hb.
  - cbn [app]. destruct p as [|y p]; [now destruct b|].
    destruct b as [|c b]; [reflexivity|].
    apply Forall_cons_iff in Hb. destruct Hb as [Hc _].
    rewrite startswith_head_absent; [reflexivity | discriminate | exact Hc].
  - destruct p as [|y p]; [reflexivity|]. cbn [app startswith].
    rewrite IH; [reflexivity|].
    eapply Forall_impl; [|exact Hb]. intros c Hc Hin. apply Hc. now right.
Qed.

(** Characters foreign to [p] around [s] do not create an occurrence. *)
Lemma contains_padding (a s b p : str) :
  p <> [] ->
  Forall (fun c => ~ In c p) a -> Forall (fun c => ~ In c p) b ->
  contains (a ++ s ++ b) p = contains s p.
Proof.
  intros Hp Ha Hb. induction Ha as [|c a Hc _ IH].
  - cbn [app]. induction s as [|x s IH].
    + cbn [app]. rewrite contains_absent by assumption.
      destruct p; [congruence | reflexivity].
    + cbn [app contains]. rewrite IH.
      change (x :: s ++ b) with ((x :: s) ++ b).
      now rewrite startswith_app_absent.
  - cbn [app contains]. now rewrite startswith_head_absent, IH.
Qed.

Lemma page_part_triggers (i : nat) (t : py_text) :
  contains (page_part i t) no_text_tag = triggers_no_text t.
Proof.
  assert (F : contains (page_marker i ++ u8 " [" ++ no_text_tag ++ u8 "]" ++ [NL])
                no_text_tag = true).
  { apply contains_app_r. apply (contains_app_r (u8 " [")). apply contains_prefix. }
  unfold page_part, triggers_no_text. destruct t as [[|c s]|]; try exact F.
  replace (page_marker i ++ [NL] ++ (c :: s) ++ [NL])
    with ((page_marker i ++ [NL]) ++ (c :: s) ++ [NL])
    by (rewrite <- app_assoc; reflexivity).
  apply contains_padding.
  - discriminate.
  - apply Forall_app. split.
    + eapply Forall_impl; [|apply page_marker_ascii].
      intros x Hx Hin. cbn in Hin. intuition (subst; lia).
    + repeat constructor. cbn. unfold NL. intuition discriminate.
  - repeat constructor. cbn. unfold NL. intuition discriminate.
Qed.

Lemma segments_trigger (texts : list py_text) :
  forall i,
    existsb (fun part => contains part no_text_tag) (segments i texts)
    = existsb triggers_no_text texts.
Proof.
  induction texts as [|t texts IH]; intros i; [reflexivity|].
  cbn [segments existsb]. now rewrite page_part_triggers, IH.
Qed.

(** The whole trace of a page-oriented adapter on a document that opens
    and of which no page raises. *)
Lemma extract_paged_trace (b : backend) (import_lib : result unit)
    (open_pages : str -> result (list page)) (pdf_path : str) (texts : list py_text) :
  import_lib = Ok tt ->
  open_pages pdf_path = Ok (map (@Ok py_text) texts) ->
  snd (extract_paged b import_lib open_pages pdf_path)
  = [Log INFO (MsgUsing b pdf_path)]
    ++ map (fun j => Log INFO (MsgProgress j (List.length texts)))
           (milestones (List.length texts))
    ++ [if existsb triggers_no_text texts
        then Log WARNING (MsgSomePagesNoText b)
        else Log INFO (MsgAllPagesHaveText b)].
Proof.
  intros Hi Ho. unfold extract_paged. rewrite Hi, Ho.
  pose proof (page_loop_ok texts 1 (List.length (map (@Ok py_text) texts)) []
                [Log INFO (MsgUsing b pdf_path)]) as H1.
  pose proof (page_loop_trace texts 1 (List.length (map (@Ok py_text) texts)) []
                [Log INFO (MsgUsing b pdf_path)]) as H2.
  destruct (page_loop _ _ _ _ _) as [r log']. cbn [fst snd] in H1, H2. subst r log'.
  cbn [snd]. rewrite length_map.
  change ([] ++ segments 1 texts) with (segments 1 texts).
  rewrite segments_trigger.
  unfold milestones. rewrite <- app_assoc.
  now destruct (existsb triggers_no_text texts).
Qed.

Lemma progress_of_app (a b : trace) :
  progress_of (a ++ b) = progress_of a ++ progress_of b.
Proof.
  induction a as [|e a IH]; [reflexivity|].
  destruct e as [c|lvl m]; [exact IH|].
  destruct m; cbn [app progress_of]; now rewrite ?IH.
Qed.

Lemma progress_of_records (total : nat) (js : list nat) :
  progress_of (map (fun j => Log INFO (MsgProgress j total)) js)
  = map (fun j => (j, total)) js.
Proof.
  induction js as [|j js IH]; [reflexivity|]. cbn [map progress_of]. now rewrite IH.
Qed.

Lemma milestones_last (total : nat) :
  1 <= total -> exists js, milestones total = js ++ [total].
Proof.
  intros H. unfold milestones. destruct total as [|n]; [lia|].
  rewrite seq_S, filter_app. cbn [filter].
  replace (1 + n) with (S n) by lia. rewrite Nat.eqb_refl, orb_true_r.
  eauto.
Qed.

(** X8. On an N-page document of which no page raises, a page-oriented
    adapter logs progress exactly at the pages whose number is a multiple of
    10 and at page N, in ascending order, each record showing N as the
    total; for N >= 1 the last progress record is N/N. *)
Theorem paged_progress_records (env : Env) (pdf_path : str) (texts : list py_text) :
  (import_pdfplumber env = Ok tt ->
   pdfplumber_open env pdf_path = Ok (map (@Ok py_text) texts) ->
   progress_of (snd (extract_with_pdfplumber env pdf_path))
   = map (fun j => (j, List.length texts)) (milestones (List.length texts))) /\
  (import_pypdf env = Ok tt ->
   PdfReader env pdf_path = Ok (map (@Ok py_text) texts) ->
   progress_of (snd (extract_with_pypdf env pdf_path))
   = map (fun j => (j, List.length texts)) (milestones (List.length texts))) /\
  (1 <= List.length texts ->
   exists js, milestones (List.length texts) = js ++ [List.length texts]).
Proof.
  assert (P : forall b,
    progress_of ([Log INFO (MsgUsing b pdf_path)]
      ++ map (fun j => Log INFO (MsgProgress j (List.length texts)))
             (milestones (List.length texts))
      ++ [if existsb triggers_no_text texts
          then Log WARNING (MsgSomePagesNoText b)
          else Log INFO (MsgAllPagesHaveText b)])
    = map (fun j => (j, List.length texts)) (milestones (List.length texts))).
  { intros b. rewrite !progress_of_app, progress_of_records.
    destruct (existsb triggers_no_text texts); cbn; now rewrite app_nil_r. }
  split; [|split].
  - intros Hi Ho. unfold extract_with_pdfplumber.
    rewrite (@extract_paged_trace Pdfplumber _ _ _ texts Hi Ho). apply P.
  - intros Hi Ho. unfold extract_with_pypdf.
    rewrite (@extract_paged_trace Pypdf _ _ _ texts Hi Ho). apply P.
  - apply milestones_last.
Qed.

Lemma paged_progress_records_witness :
  progress_of
    (snd (extract_with_pypdf
            (sample_env (Ok []) (Ok (map (@Ok py_text) (repeat None 23))) (Ok None))
            (u8 "doc.pdf")))
  = map (fun j => (j, List.length (repeat (@None str) 23)))
        (milestones (List.length (repeat (@None str) 23))).
Proof.
  apply (proj1 (proj2 (paged_progress_records
                         (sample_env (Ok []) (Ok (map (@Ok py_text) (repeat None 23))) (Ok None))
                         (u8 "doc.pdf") (repeat None 23)))); reflexivity.
Defined.

Example progress_of_23_pages :
  map (fun j => (j, 23)) (milestones 23) = [(10, 23); (20, 23); (23, 23)].
Proof. reflexivity. Qed.

(** X9. The closing record of a page-oriented adapter is the warning
    "some pages have no text" exactly when some page has no text or some
    page's text contains the tag "无文本" itself; otherwise it is the
    information "all pages have text". *)
Theorem paged_summary_record (env : Env) (pdf_path : str) (texts : list py_text) :
  (import_pdfplumber env = Ok tt ->
   pdfplumber_open env pdf_path = Ok (map (@Ok py_text) texts) ->
   exists log,
     snd (extract_with_pdfplumber env pdf_path)
     = log ++ [if existsb triggers_no_text texts
               then Log WARNING (MsgSomePagesNoText Pdfplumber)
               else Log INFO (MsgAllPagesHaveText Pdfplumber)]) /\
  (import_pypdf env = Ok tt ->
   PdfReader env pdf_path = Ok (map (@Ok py_text) texts) ->
   exists log,
     snd (extract_with_pypdf env pdf_path)
     = log ++ [if existsb triggers_no_text texts
               then Log WARNING (MsgSomePagesNoText Pypdf)
               else Log INFO (MsgAllPagesHaveText Pypdf)]) /\
  (existsb triggers_no_text texts = true <->
   exists t, In t texts /\
     (truthy t = false \/ exists s, t = Some s /\ contains s no_text_tag = true)).
Proof.
  split; [|split].
  - intros Hi Ho. unfold extract_with_pdfplumber.
    rewrite (@extract_paged_trace Pdfplumber _ _ _ texts Hi Ho).
    eexists. rewrite app_assoc. reflexivity.
  - intros Hi Ho. unfold extract_with_pypdf.
    rewrite (@extract_paged_trace Pypdf _ _ _ texts Hi Ho).
    eexists. rewrite app_assoc. reflexivity.
  - rewrite existsb_exists. split.
    + intros (t & Hin & Ht). exists t. split; [exact Hin|].
      destruct t as [[|c s]|]; cbn in *; eauto.
    + intros (t & Hin & [Ht | (s & -> & Hs)]); exists t + exists (Some s);
        (split; [assumption|]).
      * now destruct t as [[|c s]|].
      * destruct s; [discriminate Hs | exact Hs].
Qed.

Lemma paged_summary_record_witness :
  exists log,
    snd (extract_with_pdfplumber
           (sample_env (Ok (map (@Ok py_text) tag_in_text)) (Ok []) (Ok None))
           (u8 "doc.pdf"))
    = log ++ [if existsb triggers_no_text tag_in_text
              then Log WARNING (MsgSomePagesNoText Pdfplumber)
              else Log INFO (MsgAllPagesHaveText Pdfplumber)].
Proof.
  apply (proj1 (paged_summary_record
                  (sample_env (Ok (map (@Ok py_text) tag_in_text)) (Ok []) (Ok None))
                  (u8 "doc.pdf") tag_in_text)); reflexivity.
Defined.

(** Every page of [tag_in_text] has text, and the warning is logged. *)
Example tag_in_text_warns :
  Forall (fun t => truthy t = true) tag_in_text /\
  In (Log WARNING (MsgSomePagesNoText Pdfplumber))
     (snd (extract_with_pdfplumber
             (sample_env (Ok (map (@Ok py_text) tag_in_text)) (Ok []) (Ok None))
             (u8 "doc.pdf"))).
Proof.
  split; [repeat constructor|]. vm_compute. auto.
Qed.

(** ** Failure inside an adapter *)

Lemma on_error_record (b : backend) (e : exn) (log : trace) :
  on_error b e log = (None, log ++ [failure_record b e]).
Proof. now destruct e. Qed.

Lemma page_loop_raises (texts : list py_text) (e : exn) (rest : list page) :
  forall i total text_parts log,
    fst (page_loop (map (@Ok py_text) texts ++ Raise e :: rest) i total text_parts log)
    = Raise e.
Proof.
  induction texts as [|t texts IH]; intros i total parts log; [reflexivity|].
  cbn [map app page_loop]. apply IH.
Qed.

Lemma extract_paged_raises (b : backend) (import_lib : result unit)
    (open_pages : str -> result (list page)) (pdf_path : str) (e : exn) :
  paged_raises import_lib (open_pages pdf_path) e ->
  fst (extract_paged b import_lib open_pages pdf_path) = None /\
  exists log,
    snd (extract_paged b import_lib open_pages pdf_path) = log ++ [failure_record b e] /\
    reasons log = [].
Proof.
  unfold extract_paged.
  intros [Hi | [[Hi Ho] | [Hi (texts & rest & Ho)]]]; rewrite Hi.
  - rewrite on_error_record. split; [reflexivity|]. now exists [].
  - rewrite Ho, on_error_record. split; [reflexivity|]. eexists. split; reflexivity.
  - rewrite Ho.
    pose proof (page_loop_raises texts e rest 1
                  (List.length (map (@Ok py_text) texts ++ Raise e :: rest)) []
                  [Log INFO (MsgUsing b pdf_path)]) as H1.
    destruct (@page_loop_log (map (@Ok py_text) texts ++ Raise e :: rest) 1
                (List.length (map (@Ok py_text) texts ++ Raise e :: rest)) []
                [Log INFO (MsgUsing b pdf_path)]) as (extra & H2 & _ & Hr).
    destruct (page_loop _ _ _ _ _) as [r log']. cbn [fst snd] in H1, H2. subst r log'.
    rewrite on_error_record. split; [reflexivity|].
    eexists. split; [reflexivity|]. now rewrite reasons_app, Hr.
Qed.

(** X10. A page-oriented adapter is all or nothing: as soon as the import,
    the opening of the document or any page raises, the text of the pages
    already read is dropped, [None] is returned, and the log ends with the
    only reason record of the attempt.  That record says "not installed"
    for an [ImportError] wherever it was raised, and "extraction failed"
    with the text of the exception otherwise. *)
Theorem paged_failure_is_total (env : Env) (pdf_path : str) (e : exn) :
  (paged_raises (import_pdfplumber env) (pdfplumber_open env pdf_path) e ->
   fst (extract_with_pdfplumber env pdf_path) = None /\
   exists log,
     snd (extract_with_pdfplumber env pdf_path) = log ++ [failure_record Pdfplumber e] /\
     reasons log = []) /\
  (paged_raises (import_pypdf env) (PdfReader env pdf_path) e ->
   fst (extract_with_pypdf env pdf_path) = None /\
   exists log,
     snd (extract_with_pypdf env pdf_path) = log ++ [failure_record Pypdf e] /\
     reasons log = []).
Proof.
  split; intros H; now apply extract_paged_raises.
Qed.

Lemma paged_failure_is_total_witness :
  fst (extract_with_pdfplumber third_page_broken (u8 "doc.pdf")) = None /\
  exists log,
    snd (extract_with_pdfplumber third_page_broken (u8 "doc.pdf"))
    = log ++ [failure_record Pdfplumber (OtherError (u8 "bad stream"))] /\
    reasons log = [].
Proof.
  apply (proj1 (paged_failure_is_total third_page_broken (u8 "doc.pdf")
                  (OtherError (u8 "bad stream")))).
  right. right. split; [reflexivity|].
  exists [Some (u8 "one"); Some (u8 "two")], [Ok (Some (u8 "four"))]. reflexivity.
Defined.

(** ** The result of a request *)

Lemma first_accepted_or_none (P : backend -> bool) (bs : list backend) :
  (forall b, In b bs -> P b = false) \/
  exists pre b post,
    bs = pre ++ b :: post /\ (forall b', In b' pre -> P b' = false) /\ P b = true.
Proof.
  induction bs as [|b bs IH]; [left; intros b []|].
  destruct (P b) eqn:E.
  - right. exists [], b, bs. repeat split; auto. intros b' [].
  - destruct IH as [IH | (pre & b0 & post & -> & Hpre & Hb)].
    + left. intros b' [<- | Hin]; auto.
    + right. exists (b :: pre), b0, post. repeat split; auto.
      intros b' [<- | Hin]; auto.
Qed.

Lemma selected_NoDup (method : str) : NoDup (selected method).
Proof.
  unfold selected.
  repeat match goal with |- context [if ?c then _ else _] => destruct c end;
    try apply priority_NoDup; repeat constructor; simpl; tauto.
Qed.

(** The three ways a request can end. *)
Lemma extract_pdf_text_cases (lower : str -> str) (env : Env) (pdf_path method : str) :
  (fst (check_pdf_file lower env pdf_path) = false /\
   extract_pdf_text lower env pdf_path method
   = (None, [Log ERROR (MsgInvalid (snd (check_pdf_file lower env pdf_path)))])) \/
  (fst (check_pdf_file lower env pdf_path) = true /\
   (forall b, In b (selected method) ->
      is_acceptable (backend_result env pdf_path b) = false) /\
   extract_pdf_text lower env pdf_path method
   = (carried_text env pdf_path (selected method) None,
      [Log INFO (MsgStart pdf_path (getsize env pdf_path))]
      ++ flat_map (attempt_log env pdf_path) (selected method)
      ++ [Log ERROR MsgAllFailed])) \/
  (fst (check_pdf_file lower env pdf_path) = true /\
   exists pre b post,
     selected method = pre ++ b :: post /\
     (forall b', In b' pre -> is_acceptable (backend_result env pdf_path b') = false) /\
     is_acceptable (backend_result env pdf_path b) = true /\
     fst (extract_pdf_text lower env pdf_path method) = backend_result env pdf_path b /\
     calls (snd (extract_pdf_text lower env pdf_path method)) = pre ++ [b]).
Proof.
  destruct (fst (check_pdf_file lower env pdf_path)) eqn:Hv.
  - right.
    destruct (first_accepted_or_none
                (fun b => is_acceptable (backend_result env pdf_path b)) (selected method))
      as [Hrej | (pre & b & post & Hsel & Hpre & Hb)].
    + left. split; [reflexivity|]. split; [exact Hrej|].
      now apply extract_pdf_text_rejects.
    + right. split; [reflexivity|]. exists pre, b, post.
      destruct (@extract_pdf_text_accepts lower env pdf_path method pre b post)
        as [E1 E2]; auto.
  - left. split; [reflexivity|]. now apply extract_pdf_text_invalid.
Qed.

(** X11. Whatever the document and the method, [extract_pdf_text] returns
    [None], the empty string, or a text that the judge accepts and that is,
    unchanged, the result of one of the selected backends, the last one
    invoked.  It never returns a non-empty text that the judge rejects. *)
Theorem extract_pdf_text_result (lower : str -> str) (env : Env) (pdf_path method : str) :
  fst (extract_pdf_text lower env pdf_path method) = None \/
  fst (extract_pdf_text lower env pdf_path method) = Some [] \/
  (is_acceptable (fst (extract_pdf_text lower env pdf_path method)) = true /\
   exists pre b,
     In b (selected method) /\
     calls (snd (extract_pdf_text lower env pdf_path method)) = pre ++ [b] /\
     fst (extract_pdf_text lower env pdf_path method) = backend_result env pdf_path b).
Proof.
  destruct (extract_pdf_text_cases lower env pdf_path method)
    as [[_ E] | [(_ & _ & E) | (_ & pre & b & post & Hsel & _ & Hb & E1 & E2)]].
  - left. now rewrite E.
  - rewrite E. cbn [fst].
    destruct (@carried_text_falsy env pdf_path (selected method) None (or_introl eq_refl))
      as [[F | F] _]; auto.
  - right. right. rewrite E1. split; [exact Hb|]. exists pre, b.
    split; [rewrite Hsel; apply in_elt | auto].
Qed.

(** X12. With ['auto'] the failure value is always [None]: the request
    returns either [None] or a text the judge accepts, never the empty
    string, because pdfminer, tried last, returns [None] when it has no
    text. *)
Theorem auto_returns_none_or_accepted (lower : str -> str) (env : Env) (pdf_path : str) :
  fst (extract_pdf_text lower env pdf_path (u8 "auto")) = None \/
  is_acceptable (fst (extract_pdf_text lower env pdf_path (u8 "auto"))) = true.
Proof.
  destruct (extract_pdf_text_cases lower env pdf_path (u8 "auto"))
    as [[_ E] | [(_ & _ & E) | (_ & pre & b & post & _ & _ & Hb & E1 & _)]].
  - left. now rewrite E.
  - left. rewrite E. cbn [fst].
    change (selected (u8 "auto")) with [Pdfplumber; Pypdf; Pdfminer].
    cbn [carried_text]. cbv zeta.
    destruct (backend_result_shape env pdf_path Pdfminer) as [F | [F | F]].
    + rewrite F. reflexivity.
    + exfalso. unfold backend_result in F. cbn [run_backend] in F.
      destruct (extract_with_pdfminer_shape env pdf_path) as [G | G];
        rewrite F in G; discriminate G.
    + now rewrite F.
  - right. now rewrite E1.
Qed.

(** X13. No backend is invoked twice in a request, none outside the
    selection, and always in priority order without gaps: the backends
    invoked form an initial part of the selected list. *)
Theorem backends_invoked_once_in_order (lower : str -> str) (env : Env)
    (pdf_path method : str) :
  (exists rest,
     selected method = calls (snd (extract_pdf_text lower env pdf_path method)) ++ rest) /\
  NoDup (calls (snd (extract_pdf_text lower env pdf_path method))).
Proof.
  assert (P : exists rest,
    selected method = calls (snd (extract_pdf_text lower env pdf_path method)) ++ rest).
  { destruct (extract_pdf_text_cases lower env pdf_path method)
      as [[_ E] | [(_ & _ & E) | (_ & pre & b & post & Hsel & _ & _ & _ & E2)]].
    - rewrite E. now exists (selected method).
    - rewrite E. cbn [snd]. rewrite calls_framed by reflexivity.
      rewrite calls_attempts. exists []. now rewrite app_nil_r.
    - rewrite E2, Hsel. exists post. now rewrite <- app_assoc. }
  split; [exact P|]. destruct P as [rest E].
  pose proof (selected_NoDup method) as N. rewrite E in N.
  now apply NoDup_app_remove_r in N.
Qed.

(** A truthy result has passed the judge. *)
Lemma truthy_result_accepted (lower : str -> str) (env : Env) (pdf_path method : str) :
  truthy (fst (extract_pdf_text lower env pdf_path method)) = true ->
  is_acceptable (fst (extract_pdf_text lower env pdf_path method)) = true.
Proof.
  destruct (extract_pdf_text_cases lower env pdf_path method)
    as [[_ E] | [(_ & _ & E) | (_ & pre & b & post & _ & _ & Hb & E1 & _)]].
  - rewrite E. discriminate.
  - rewrite E. cbn [fst].
    assert (F : carried_text env pdf_path (selected method) None = None \/
                carried_text env pdf_path (selected method) None = Some []).
    { apply carried_text_falsy. now left. }
    destruct F as [F | F]; rewrite F; discriminate.
  - intros _. now rewrite E1.
Qed.

Lemma filter_length_le_imp (A : Type) (f g : A -> bool) (l : list A) :
  (forall x, f x = true -> g x = true) ->
  List.length (filter f l) <= List.length (filter g l).
Proof.
  intros H. induction l as [|x l IH]; [simpl; lia|].
  cbn [filter]. destruct (f x) eqn:E.
  - rewrite (H x E). simpl. lia.
  - destruct (g x); simpl; lia.
Qed.

(** X14. The last log record of a request tells how it ended.  After a
    truthy result it is the statistics record, with the number of
    characters of the text returned and a count of non-blank lines that is
    at least 6; after a falsy result it is an error, the validator's message
    or "all methods failed". *)
Theorem extract_pdf_text_last_record (lower : str -> str) (env : Env)
    (pdf_path method : str) :
  (forall text,
     fst (extract_pdf_text lower env pdf_path method) = Some text ->
     nonempty text = true ->
     exists log n,
       snd (extract_pdf_text lower env pdf_path method)
       = log ++ [Log INFO (MsgDone n (List.length text))] /\
       6 <= n <= List.length (split NL text)) /\
  (truthy (fst (extract_pdf_text lower env pdf_path method)) = false ->
   exists log m,
     snd (extract_pdf_text lower env pdf_path method) = log ++ [Log ERROR m] /\
     (m = MsgAllFailed \/ m = MsgInvalid (snd (check_pdf_file lower env pdf_path)))).
Proof.
  destruct (fst (check_pdf_file lower env pdf_path)) eqn:Hv.
  2:{ rewrite (@extract_pdf_text_invalid lower env pdf_path method Hv). split.
      - intros text H. discriminate H.
      - intros _. exists [], (MsgInvalid (snd (check_pdf_file lower env pdf_path))).
        auto. }
  pose proof (truthy_result_accepted lower env pdf_path method) as R.
  rewrite (@extract_pdf_text_valid lower env pdf_path method Hv) in *. cbv zeta in *.
  destruct (fst (try_methods env pdf_path (methods_of method) None)) as [[|c s]|];
    cbn [fst snd] in *.
  - split; [intros text H; injection H as <-; discriminate|].
    intros _. eexists _, MsgAllFailed. rewrite app_assoc. auto.
  - split; [|discriminate].
    intros text H _. injection H as <-.
    specialize (R eq_refl).
    apply acceptable_iff_count in R. cbn [content_count] in R.
    eexists _, _. rewrite app_assoc. split; [reflexivity|]. split.
    + etransitivity; [exact R|]. unfold content_lines.
      apply filter_length_le_imp. intros l Hl.
      unfold is_content_line in Hl. now apply andb_true_iff in Hl.
    + apply filter_length_le.
  - split; [intros text H; discriminate H|].
    intros _. eexists _, MsgAllFailed. rewrite app_assoc. auto.
Qed.

Lemma extract_pdf_text_last_record_witness :
  exists log n,
    snd (extract_pdf_text ascii_lower scanned_then_text (u8 "Doc.PDF") (u8 "auto"))
    = log ++ [Log INFO (MsgDone n (List.length (u8 "=== Page 1 ===
one
two
=== Page 2 ===
three
four
=== Page 3 ===
five
six
")))] /\
    6 <= n <= List.length (split NL (u8 "=== Page 1 ===
one
two
=== Page 2 ===
three
four
=== Page 3 ===
five
six
")).
Proof.
  apply (proj1 (extract_pdf_text_last_record ascii_lower scanned_then_text
                  (u8 "Doc.PDF") (u8 "auto"))); reflexivity.
Defined.

(** ** Paths *)

Lemma rfind_none_iff (c : char) (s : str) : rfind c s = None <-> ~ In c s.
Proof.
  induction s as [|x s IH]; cbn [rfind In]; [tauto|].
  destruct (rfind c s) as [i|].
  - split; [discriminate|]. intros H. exfalso.
    assert (G : ~ In c s) by tauto. apply IH in G. discriminate G.
  - assert (G : ~ In c s) by now apply IH.
    destruct (N.eqb_spec x c) as [-> | Hx]; split; try discriminate; try tauto.
Qed.

Lemma rfind_some_split (c : char) (s : str) (i : nat) :
  rfind c s = Some i ->
  exists a b, s = a ++ c :: b /\ List.length a = i /\ ~ In c b.
Proof.
  revert i. induction s as [|x s IH]; intros i H; [discriminate|].
  cbn [rfind] in H. destruct (rfind c s) as [j|] eqn:E.
  - injection H as <-. destruct (IH j eq_refl) as (a & b & -> & <- & Hb).
    now exists (x :: a), b.
  - destruct (N.eqb_spec x c) as [-> | Hx]; [|discriminate].
    injection H as <-. exists [], s. repeat split. now apply rfind_none_iff.
Qed.

Lemma rfind_app_last (c : char) (a b : str) :
  ~ In c b -> rfind c (a ++ c :: b) = Some (List.length a).
Proof.
  intros Hb. induction a as [|x a IH].
  - cbn [app rfind]. apply rfind_none_iff in Hb. rewrite Hb.
    now rewrite N.eqb_refl.
  - cbn [app rfind List.length]. now rewrite IH.
Qed.

Lemma skipn_app_exact (A : Type) (a b : list A) : skipn (List.length a) (a ++ b) = b.
Proof. induction a; simpl; auto. Qed.

Lemma firstn_app_exact (A : Type) (a b : list A) : firstn (List.length a) (a ++ b) = a.
Proof. induction a; simpl; [now destruct b | now f_equal]. Qed.

Lemma basename_no_slash (p : str) : ~ In SLASH (basename p).
Proof.
  unfold basename. destruct (rfind SLASH p) as [i|] eqn:E.
  - destruct (rfind_some_split _ _ E) as (a & b & -> & <- & Hb).
    assert (K : skipn (S (List.length a)) (a ++ SLASH :: b) = b).
    { replace (S (List.length a)) with (List.length (a ++ [SLASH]))
        by (rewrite length_app; simpl; lia).
      replace (a ++ SLASH :: b) with ((a ++ [SLASH]) ++ b)
        by (rewrite <- app_assoc; reflexivity).
      apply skipn_app_exact. }
    now rewrite K.
  - now apply rfind_none_iff.
Qed.

Lemma basename_of_file (dir name : str) :
  ~ In SLASH name ->
  basename (dir ++ SLASH :: name) = name /\ basename name = name.
Proof.
  intros H. unfold basename. split.
  - rewrite rfind_app_last by exact H.
    replace (dir ++ SLASH :: name) with ((dir ++ [SLASH]) ++ name)
      by (rewrite <- app_assoc; reflexivity).
    replace (S (List.length dir)) with (List.length (dir ++ [SLASH]))
      by (rewrite length_app; simpl; lia).
    apply skipn_app_exact.
  - apply rfind_none_iff in H. now rewrite H.
Qed.

(** [root + ext == p] *)
Lemma splitext_join (p : str) : fst (splitext p) ++ snd (splitext p) = p.
Proof.
  unfold splitext. destruct (rfind DOT p) as [d|]; [|apply app_nil_r].
  destruct (_ && _); [apply firstn_skipn | apply app_nil_r].
Qed.

Lemma dirname_no_slash (p : str) : ~ In SLASH p -> dirname p = [].
Proof.
  intros H. unfold dirname. apply rfind_none_iff in H. now rewrite H.
Qed.

Lemma default_output_no_slash (pdf_file : str) : ~ In SLASH (default_output pdf_file).
Proof.
  unfold default_output. intros H. apply in_app_or in H. destruct H as [H | H].
  - apply (basename_no_slash pdf_file).
    rewrite <- (splitext_join (basename pdf_file)). apply in_or_app. now left.
  - cbn in H. unfold SLASH in H. intuition discriminate.
Qed.

Lemma has_non_dot_iff (s : str) :
  has_non_dot s = true <-> exists c, In c s /\ c <> DOT.
Proof.
  induction s as [|x s IH]; cbn [has_non_dot].
  - split; [discriminate | intros (c & [] & _)].
  - destruct (N.eqb_spec x DOT) as [-> | Hx]; cbn [negb].
    + rewrite IH. split.
      * intros (c & Hc & Hd). exists c. simpl. auto.
      * intros (c & [<- | Hc] & Hd); [congruence | eauto].
    + split; [|reflexivity]. intros _. exists x. simpl. auto.
Qed.

(** X15. For a path [dir/stem.ext], or [stem.ext] without directory, where
    the stem has no slash and at least one character that is not a dot and
    the extension has neither dot nor slash, the default output name is
    [stem_extracted.txt]: directory and extension are dropped, dots inside
    the stem are kept. *)
Theorem default_output_of_file (dir stem ext : str) :
  ~ In SLASH stem -> (exists c, In c stem /\ c <> DOT) ->
  ~ In SLASH ext -> ~ In DOT ext ->
  default_output (dir ++ SLASH :: stem ++ DOT :: ext) = stem ++ u8 "_extracted.txt" /\
  default_output (stem ++ DOT :: ext) = stem ++ u8 "_extracted.txt".
Proof.
  intros Hs Hd He1 He2.
  assert (Hn : ~ In SLASH (stem ++ DOT :: ext)).
  { intros H. apply in_app_or in H. destruct H as [H | [H | H]]; auto.
    unfold DOT, SLASH in H. discriminate H. }
  assert (S : fst (splitext (stem ++ DOT :: ext)) = stem).
  { unfold splitext. rewrite rfind_app_last by exact He2.
    rewrite (proj2 (rfind_none_iff SLASH (stem ++ DOT :: ext)) Hn).
    rewrite Nat.sub_0_r. cbn [skipn Nat.leb andb].
    rewrite !firstn_app_exact.
    apply has_non_dot_iff in Hd. rewrite Hd. reflexivity. }
  unfold default_output.
  destruct (@basename_of_file dir (stem ++ DOT :: ext) Hn) as [B1 B2].
  now rewrite B1, B2, S.
Qed.

Lemma default_output_of_file_witness :
  default_output (u8 "docs/2024" ++ SLASH :: u8 "My.Report" ++ DOT :: u8 "PDF")
  = u8 "My.Report" ++ u8 "_extracted.txt" /\
  default_output (u8 "My.Report" ++ DOT :: u8 "PDF")
  = u8 "My.Report" ++ u8 "_extracted.txt".
Proof.
  apply (@default_output_of_file (u8 "docs/2024") (u8 "My.Report") (u8 "PDF")).
  - vm_compute. intuition discriminate.
  - exists 77%N. split; [vm_compute; auto | discriminate].
  - vm_compute. intuition discriminate.
  - vm_compute. intuition discriminate.
Defined.

(** A name made of dots and an extension keeps its extension. *)
Example default_output_hidden_file :
  default_output (u8 "dir/.pdf") = u8 ".pdf_extracted.txt".
Proof. vm_compute. reflexivity. Qed.

(** ** Saving and the command line *)


Ltac split_in H :=
  repeat (destruct H as [H | H]; [try discriminate H | ]);
  try contradiction.

(** The trace of [save_text_to_file], case by case. *)
Lemma save_text_to_file_cases (out : OutEnv) (text output_path : str) :
  let needed := nonempty (dirname output_path)
                && negb (dir_exists out (dirname output_path)) in
  let before := if needed then [Makedirs (dirname output_path)] else [] in
  (exists e,
     needed = true /\ makedirs out (dirname output_path) = Raise e /\
     save_text_to_file out text output_path
     = (false, before ++ [OutLog ERROR (MsgSaveFailed (exn_str e))])) \/
  ((needed = true -> makedirs out (dirname output_path) = Ok tt) /\
   ((exists e,
       write_text out output_path text = Raise e /\
       save_text_to_file out text output_path
       = (false, before ++ [Write output_path text;
                            OutLog ERROR (MsgSaveFailed (exn_str e))])) \/
    (write_text out output_path text = Ok tt /\
     save_text_to_file out text output_path
     = (true, before ++ [Write output_path text;
                         OutLog INFO (MsgSaved output_path)])))).
Proof.
  cbv zeta. unfold save_text_to_file. cbv zeta.
  destruct (nonempty (dirname output_path)
            && negb (dir_exists out (dirname output_path))).
  - destruct (makedirs out (dirname output_path)) as [[]|e1].
    + right. split; [reflexivity|].
      destruct (write_text out output_path text) as [[]|e2]; eauto.
    + left. exists e1. auto.
  - right. split; [discriminate|].
    destruct (write_text out output_path text) as [[]|e2]; eauto.
Qed.

Lemma save_makedirs_iff (out : OutEnv) (text output_path d : str) :
  In (Makedirs d) (snd (save_text_to_file out text output_path)) <->
  d = dirname output_path /\
  nonempty d = true /\ dir_exists out d = false.
Proof.
  pose proof (save_text_to_file_cases out text output_path) as C. cbv zeta in C.
  destruct (nonempty (dirname output_path)) eqn:Hn;
    destruct (dir_exists out (dirname output_path)) eqn:He; cbn [andb negb] in C;
    destruct C as [(e & Hneed & _ & E) | [_ [(e & _ & E) | [_ E]]]];
    try discriminate Hneed; rewrite E; cbn [snd app In]; split;
    try (intros H; split_in H; try (injection H as <-); auto; fail);
    try (intros (-> & H1 & H2); auto; congruence).
Qed.

Lemma save_true (out : OutEnv) (text output_path : str) :
  fst (save_text_to_file out text output_path) = true ->
  write_text out output_path text = Ok tt /\
  In (Write output_path text) (snd (save_text_to_file out text output_path)).
Proof.
  destruct (save_text_to_file_cases out text output_path)
    as [(e & _ & _ & E) | [_ [(e & _ & E) | [W E]]]];
    rewrite E; cbn [fst snd]; intros H; try discriminate H.
  split; [exact W|]. apply in_or_app. right. now left.
Qed.

(** X16. [save_text_to_file] creates the directory of the output path only
    when the path has a directory part that does not exist yet, writes
    nothing if that creation fails, writes only the text it was given to the
    path it was given, answers [True] exactly when every step it took
    succeeded, and otherwise logs the exception as an error and answers
    [False]. *)
Theorem save_text_to_file_outcome (out : OutEnv) (text output_path : str) :
  (forall d,
     In (Makedirs d) (snd (save_text_to_file out text output_path)) <->
     d = dirname output_path /\ nonempty d = true /\ dir_exists out d = false) /\
  (forall p t,
     In (Write p t) (snd (save_text_to_file out text output_path)) ->
     p = output_path /\ t = text) /\
  (forall e,
     nonempty (dirname output_path) = true ->
     dir_exists out (dirname output_path) = false ->
     makedirs out (dirname output_path) = Raise e ->
     save_text_to_file out text output_path
     = (false, [Makedirs (dirname output_path); OutLog ERROR (MsgSaveFailed (exn_str e))])) /\
  (fst (save_text_to_file out text output_path) = true <->
   (nonempty (dirname output_path) = true ->
    dir_exists out (dirname output_path) = false ->
    makedirs out (dirname output_path) = Ok tt) /\
   write_text out output_path text = Ok tt) /\
  (fst (save_text_to_file out text output_path) = false ->
   exists log e,
     snd (save_text_to_file out text output_path)
     = log ++ [OutLog ERROR (MsgSaveFailed e)]).
Proof.
  split; [intros d; apply save_makedirs_iff|].
  pose proof (save_text_to_file_cases out text output_path) as C. cbv zeta in C.
  split; [|split; [|split]].
  - intros p t.
    destruct C as [(e & _ & _ & E) | [_ [(e & _ & E) | [_ E]]]]; rewrite E;
      cbn [snd]; intros H; apply in_app_or in H; destruct H as [H | H];
      try (destruct (_ && _); split_in H; fail);
      split_in H; injection H as <- <-; auto.
  - intros e Hn He Hm. rewrite Hn, He in C. cbn [andb negb] in C.
    destruct C as [(e' & _ & Hm' & E) | [Hm' _]].
    + rewrite E. rewrite Hm' in Hm. injection Hm as ->. reflexivity.
    + rewrite Hm' in Hm by reflexivity. discriminate Hm.
  - destruct C as [(e & Hneed & Hm & E) | [Hm [(e & W & E) | [W E]]]]; rewrite E;
      cbn [fst]; split; try discriminate; auto.
    + intros [H _]. apply andb_true_iff in Hneed. destruct Hneed as [Hn He].
      apply negb_true_iff in He. rewrite (H Hn He) in Hm. discriminate Hm.
    + intros [_ H]. rewrite H in W. discriminate W.
    + intros _. split; [|exact W]. intros Hn He. apply Hm. now rewrite Hn, He.
  - destruct C as [(e & _ & _ & E) | [_ [(e & _ & E) | [_ E]]]]; rewrite E;
      cbn [fst snd]; intros H; try discriminate H.
    + eauto.
    + eexists (_ ++ [_]), _. rewrite <- app_assoc. reflexivity.
Qed.

Lemma save_text_to_file_outcome_witness :
  save_text_to_file out_readonly (u8 "text") (u8 "out/r.txt")
  = (false,
     [Makedirs (dirname (u8 "out/r.txt"));
      OutLog ERROR (MsgSaveFailed
                      (exn_str (OtherError (u8 "[Errno 13] Permission denied"))))]).
Proof.
  apply (proj1 (proj2 (proj2 (save_text_to_file_outcome out_readonly (u8 "text")
                                (u8 "out/r.txt"))))
           (OtherError (u8 "[Errno 13] Permission denied"))); reflexivity.
Defined.

(** X17. When [main] exits with code 0, the document passed the validator,
    the text written is the text [extract_pdf_text] returned, the judge
    accepted it, and the write to the output path was made and succeeded. *)
Theorem main_exit_zero (lower : str -> str) (env : Env) (out : OutEnv) (args : Args) :
  fst (main lower env out args) = 0 ->
  fst (check_pdf_file lower env (pdf_file args)) = true /\
  exists text,
    fst (extract_pdf_text lower env (pdf_file args) (method_arg args)) = Some text /\
    is_acceptable (Some text) = true /\
    write_text out (output_path_of args) text = Ok tt /\
    In (Write (output_path_of args) text) (snd (snd (main lower env out args))).
Proof.
  intros H.
  pose proof (truthy_result_accepted lower env (pdf_file args) (method_arg args)) as A.
  assert (V : fst (check_pdf_file lower env (pdf_file args)) = true).
  { destruct (fst (check_pdf_file lower env (pdf_file args))) eqn:Hv; [reflexivity|].
    unfold main in H.
    rewrite (@extract_pdf_text_invalid lower env (pdf_file args) (method_arg args) Hv) in H.
    discriminate H. }
  split; [exact V|].
  unfold main in *.
  destruct (extract_pdf_text lower env (pdf_file args) (method_arg args))
    as [[[|c s]|] tr]; cbn [fst snd] in *; try discriminate H.
  pose proof (@save_true out (c :: s) (output_path_of args)) as S.
  destruct (save_text_to_file out (c :: s) (output_path_of args)) as [[|] otr];
    cbn [fst snd] in *; try discriminate H.
  destruct (S eq_refl) as [W I].
  exists (c :: s). repeat split; auto.
  apply in_or_app. now left.
Qed.

Lemma main_exit_zero_witness :
  fst (check_pdf_file ascii_lower scanned_then_text
         (pdf_file {| pdf_file := u8 "Doc.PDF"; output := Some (u8 "out/r.txt");
                      method_arg := u8 "auto"; verbose := false |})) = true /\
  exists text,
    fst (extract_pdf_text ascii_lower scanned_then_text (u8 "Doc.PDF") (u8 "auto"))
    = Some text /\
    is_acceptable (Some text) = true /\
    write_text out_ok (u8 "out/r.txt") text = Ok tt /\
    In (Write (u8 "out/r.txt") text)
       (snd (snd (main ascii_lower scanned_then_text out_ok
                    {| pdf_file := u8 "Doc.PDF"; output := Some (u8 "out/r.txt");
                       method_arg := u8 "auto"; verbose := false |}))).
Proof.
  apply (@main_exit_zero ascii_lower scanned_then_text out_ok
           {| pdf_file := u8 "Doc.PDF"; output := Some (u8 "out/r.txt");
              method_arg := u8 "auto"; verbose := false |}).
  vm_compute. reflexivity.
Defined.

(** X18. When the validator rejects the document, or every selected backend
    is rejected, [main] exits with code 1 without touching the output side:
    no directory is created and nothing is written, whatever output path was
    asked for. *)
Theorem main_failure_writes_nothing (lower : str -> str) (env : Env) (out : OutEnv)
    (args : Args) :
  fst (check_pdf_file lower env (pdf_file args)) = false \/
  (forall b, In b (selected (method_arg args)) ->
     is_acceptable (backend_result env (pdf_file args) b) = false) ->
  fst (main lower env out args) = 1 /\
  filter is_fs_call (snd (snd (main lower env out args))) = [] /\
  In PrintHelp (snd (snd (main lower env out args))).
Proof.
  intros H.
  assert (T : truthy (fst (extract_pdf_text lower env (pdf_file args) (method_arg args)))
              = false).
  { destruct (fst (check_pdf_file lower env (pdf_file args))) eqn:Hv.
    - destruct H as [H | H]; [discriminate H|].
      rewrite (@extract_pdf_text_rejects lower env (pdf_file args) (method_arg args) Hv H).
      cbn [fst].
      assert (F : carried_text env (pdf_file args) (selected (method_arg args)) None = None \/
                  carried_text env (pdf_file args) (selected (method_arg args)) None = Some []).
      { apply carried_text_falsy. now left. }
      destruct F as [F | F]; now rewrite F.
    - now rewrite (@extract_pdf_text_invalid lower env (pdf_file args) (method_arg args) Hv). }
  unfold main.
  destruct (extract_pdf_text lower env (pdf_file args) (method_arg args))
    as [[[|c s]|] tr]; cbn [fst snd] in *; try discriminate T;
    repeat split; simpl; auto.
Qed.

Lemma main_failure_writes_nothing_witness :
  fst (main ascii_lower no_pages out_ok
         {| pdf_file := u8 "empty.pdf"; output := Some (u8 "out/r.txt");
            method_arg := u8 "auto"; verbose := true |}) = 1 /\
  filter is_fs_call
    (snd (snd (main ascii_lower no_pages out_ok
                 {| pdf_file := u8 "empty.pdf"; output := Some (u8 "out/r.txt");
                    method_arg := u8 "auto"; verbose := true |}))) = [] /\
  In PrintHelp
    (snd (snd (main ascii_lower no_pages out_ok
                 {| pdf_file := u8 "empty.pdf"; output := Some (u8 "out/r.txt");
                    method_arg := u8 "auto"; verbose := true |}))).
Proof.
  apply (@main_failure_writes_nothing ascii_lower no_pages out_ok
           {| pdf_file := u8 "empty.pdf"; output := Some (u8 "out/r.txt");
              method_arg := u8 "auto"; verbose := true |}).
  right. intros b _. destruct b; reflexivity.
Defined.

(** X19. Without [-o] (or with an empty one) the output name is built from
    the base name of the input: it has no directory part, so the text is
    written to the current directory, wherever the PDF is, and [main] never
    creates a directory. *)
Theorem main_default_output_in_cwd (lower : str -> str) (env : Env) (out : OutEnv)
    (args : Args) :
  output args = None \/ output args = Some [] ->
  output_path_of args = default_output (pdf_file args) /\
  ~ In SLASH (output_path_of args) /\
  dirname (output_path_of args) = [] /\
  forall d, ~ In (Makedirs d) (snd (snd (main lower env out args))).
Proof.
  intros H.
  assert (P : output_path_of args = default_output (pdf_file args)).
  { unfold output_path_of. destruct H as [-> | ->]; reflexivity. }
  assert (N : ~ In SLASH (output_path_of args)).
  { rewrite P. apply default_output_no_slash. }
  assert (D : dirname (output_path_of args) = []) by now apply dirname_no_slash.
  repeat split; auto.
  intros d Hin. unfold main in Hin.
  destruct (extract_pdf_text lower env (pdf_file args) (method_arg args))
    as [[[|c s]|] tr]; cbn [snd] in Hin;
    try (simpl in Hin; intuition discriminate).
  pose proof (save_makedirs_iff out (c :: s) (output_path_of args) d) as M.
  destruct (save_text_to_file out (c :: s) (output_path_of args)) as [[|] otr];
    cbn [snd] in *; apply in_app_or in Hin; destruct Hin as [Hin | Hin];
    try (simpl in Hin; intuition discriminate);
    apply M in Hin; destruct Hin as (-> & Hn & _); rewrite D in Hn; discriminate Hn.
Qed.

Lemma main_default_output_in_cwd_witness :
  output_path_of {| pdf_file := u8 "/data/in/Doc.PDF"; output := None;
                    method_arg := u8 "auto"; verbose := false |}
  = default_output (u8 "/data/in/Doc.PDF") /\
  ~ In SLASH (output_path_of {| pdf_file := u8 "/data/in/Doc.PDF"; output := None;
                                method_arg := u8 "auto"; verbose := false |}) /\
  dirname (output_path_of {| pdf_file := u8 "/data/in/Doc.PDF"; output := None;
                             method_arg := u8 "auto"; verbose := false |}) = [] /\
  forall d,
    ~ In (Makedirs d)
        (snd (snd (main ascii_lower scanned_then_text out_ok
                     {| pdf_file := u8 "/data/in/Doc.PDF"; output := None;
                        method_arg := u8 "auto"; verbose := false |}))).
Proof.
  apply (@main_default_output_in_cwd ascii_lower scanned_then_text out_ok
           {| pdf_file := u8 "/data/in/Doc.PDF"; output := None;
              method_arg := u8 "auto"; verbose := false |}).
  left. reflexivity.
Defined.

Example main_default_output_example :
  main ascii_lower scanned_then_text out_ok
    {| pdf_file := u8 "/data/in/Doc.PDF"; output := None;
       method_arg := u8 "pypdf"; verbose := false |}
  = (0,
     (snd (extract_pdf_text ascii_lower scanned_then_text (u8 "/data/in/Doc.PDF") (u8 "pypdf")),
      [Write (u8 "Doc_extracted.txt")
         (u8 "=== Page 1 ===
one
two
=== Page 2 ===
three
four
=== Page 3 ===
five
six
");
       OutLog INFO (MsgSaved (u8 "Doc_extracted.txt"));
       OutLog INFO MsgTaskDone;
       PrintSaved (u8 "Doc_extracted.txt")])).
Proof. vm_compute. reflexivity. Qed.
